(** * Enterprise Scheduler: events, resources, allocations and conflict detection

    A shallow embedding of [src/app.py].  The three SQLAlchemy models become
    records, the database becomes three tables (lists of rows, in storage
    order), every route that writes becomes a request handler in a small
    session monad (pending changes, commit, exceptions), and the queries become
    list functions over the tables. *)

From Stdlib Require Import ZArith List String Bool Lia.
From Stdlib Require Import Floats Uint63 Sorted.
Import ListNotations.
Local Open Scope Z_scope.

(** ** Data model *)

(** [db.DateTime] columns hold naive datetimes (no time zone): they are
    totally ordered and subtract to a [timedelta].  A datetime is modelled by
    its number of seconds on that line (seconds since 1970-01-01 00:00:00). *)
Definition datetime := Z.

Module Event.
Record t := mk {
    event_id : Z;
    title : string;
    start_time : datetime;
    end_time : datetime;
    description : string
}.
End Event.

Module Resource.
Record t := mk {
    resource_id : Z;
    resource_name : string;
    resource_type : string
}.
End Resource.

Module EventResourceAllocation.
(** [start_time] and [end_time] are the nullable columns added for the
    dashboard and the reports. *)
Record t := mk {
    allocation_id : Z;
    event_id : Z;
    resource_id : Z;
    start_time : option datetime;
    end_time : option datetime
}.
End EventResourceAllocation.

Definition Allocation := EventResourceAllocation.t.

(** The three tables, rows in storage order. *)
Record DB := mkDB {
  events : list Event.t;
  resources : list Resource.t;
  allocations : list Allocation
}.

Definition empty_db : DB := mkDB [] [] [].

(** [Model.query.get(pk)]: the row with that primary key, if any. *)
Definition get_event (db : DB) (id : Z) : option Event.t :=
  find (fun e => Event.event_id e =? id) (events db).

Definition get_resource (db : DB) (id : Z) : option Resource.t :=
  find (fun r => Resource.resource_id r =? id) (resources db).

Definition get_allocation (db : DB) (id : Z) : option Allocation :=
  find (fun a => EventResourceAllocation.allocation_id a =? id) (allocations db).

(** ** Conflict detection *)

(** The [or_(...)] filter of [check_conflicts]: [ev_start], [ev_end] are the
    columns of the joined (existing) event, [start_time], [end_time] the
    interval passed by the caller. *)
Definition overlaps (ev_start ev_end start_time end_time : datetime) : bool :=
  ((ev_start <=? start_time) && (ev_end >? start_time))
  || ((ev_start <? end_time) && (ev_end >=? end_time))
  || ((ev_start >=? start_time) && (ev_end <=? end_time))
  || (ev_start =? start_time).

(** [query(EventResourceAllocation).join(Event)]: the inner join on the
    foreign key [event_id]. *)
Definition join_event (db : DB) : list (Allocation * Event.t) :=
  flat_map
    (fun a =>
       map (pair a)
         (filter (fun e => Event.event_id e =? EventResourceAllocation.event_id a)
            (events db)))
    (allocations db).

Definition conflict_filter (event_id resource_id : Z) (start_time end_time : datetime)
    (row : Allocation * Event.t) : bool :=
  let (a, e) := row in
  (EventResourceAllocation.resource_id a =? resource_id)
  && negb (EventResourceAllocation.event_id a =? event_id)
  && overlaps (Event.start_time e) (Event.end_time e) start_time end_time.

Definition check_conflicts (db : DB) (event_id resource_id : Z)
    (start_time end_time : datetime) : list Allocation :=
  map fst (filter (conflict_filter event_id resource_id start_time end_time)
             (join_event db)).

(** The simplification the specification mentions as an open question. *)
Definition canonical_overlap (ev_start ev_end start_time end_time : datetime) : bool :=
  (ev_start <? end_time) && (ev_end >? start_time).

(** ** Sessions and request handlers *)

(** A request works on the session's pending copy of the database; [commit]
    makes the pending copy the stored one.  Flask-SQLAlchemy removes the
    session when the request ends, so whatever was not committed is dropped,
    also when the view raised. *)
Record Session := mkSession {
  committed : DB;
  pending : DB
}.

Inductive Exn :=
| NotFound          (* werkzeug's 404, raised by get_or_404 *)
| AttributeError    (* attribute read on None *)
| IntegrityError    (* constraint violation reported by the database *)
| ValueError
| OverflowError.

Inductive Outcome (A : Type) :=
| Return (a : A)
| Raise (e : Exn).
Arguments Return {A} a.
Arguments Raise {A} e.

Definition Req (A : Type) := Session -> Outcome A * Session.

Definition ret {A} (a : A) : Req A := fun s => (Return a, s).

Definition bind {A B} (m : Req A) (k : A -> Req B) : Req B :=
  fun s =>
    match m s with
    | (Return a, s') => k a s'
    | (Raise e, s') => (Raise e, s')
    end.

Definition raise {A} (e : Exn) : Req A := fun s => (Raise e, s).

Declare Scope req_scope.
Delimit Scope req_scope with req.
Notation "x <- m ;; k" := (bind m (fun x => k))
  (at level 61, m at next level, right associativity) : req_scope.
Notation "m ;;; k" := (bind m (fun _ => k))
  (at level 61, right associativity) : req_scope.
Local Open Scope req_scope.

(** A pure computation that may raise. *)
Definition lift {A} (o : Outcome A) : Req A := fun s => (o, s).

(** Reads see the pending state (the session flushes before each query). *)
Definition query {A} (f : DB -> A) : Req A :=
  fun s => (Return (f (pending s)), s).

Definition update (f : DB -> DB) : Req unit :=
  fun s => (Return tt, mkSession (committed s) (f (pending s))).

Definition commit : Req unit :=
  fun s => (Return tt, mkSession (pending s) (pending s)).

(** The integers SQLite stores: signed, 64 bits.  Binding any other Python
    integer to a statement raises [OverflowError] in the driver. *)
Definition fits_int64 (k : Z) : bool := (- 2 ^ 63 <=? k) && (k <? 2 ^ 63).

(** [Model.query.get_or_404(pk)]: the row, the 404 when no row has the key,
    and the driver's [OverflowError] when the key cannot be bound at all.  A
    stored key always fits, so the last case arises on a miss only. *)
Definition get_or_404 {A} (get : DB -> Z -> option A) (pk : Z) : Req A :=
  o <- query (fun db => get db pk) ;;
  match o with
  | Some x => ret x
  | None => if fits_int64 pk then raise NotFound else raise OverflowError
  end.

(** Reading an attribute of the result of [Model.query.get(pk)]: on [None]
    Python raises [AttributeError]. *)
Definition attr_of {A} (o : option A) : Req A :=
  match o with
  | Some x => ret x
  | None => raise AttributeError
  end.

(** A [for] loop that threads an accumulator. *)
Fixpoint for_each {A B} (l : list A) (acc : B) (body : B -> A -> Req B) : Req B :=
  match l with
  | [] => ret acc
  | x :: l' => acc' <- body acc x ;; for_each l' acc' body
  end.

(** What the database has stored once the request is over. *)
Definition run_request {A} (h : Req A) (db : DB) : Outcome A * DB :=
  let (o, s) := h (mkSession db db) in (o, committed s).

(** ** Table operations used by the handlers *)

(** The integer primary keys are SQLite rowids (the development database of
    [config.py]): a new row gets the largest key in its table plus one. *)
Definition next_id (ids : list Z) : Z := 1 + fold_right Z.max 0 ids.

Definition insert_event (title : string) (start_time end_time : datetime)
    (description : string) (db : DB) : DB :=
  mkDB (events db
          ++ [Event.mk (next_id (map Event.event_id (events db)))
                title start_time end_time description])
       (resources db) (allocations db).

(** Writing attributes of a loaded row: the row with that primary key is
    rewritten when the session flushes. *)
Definition update_event (id : Z) (f : Event.t -> Event.t) (db : DB) : DB :=
  mkDB (map (fun e => if Event.event_id e =? id then f e else e) (events db))
       (resources db) (allocations db).

Definition set_title_description (title description : string) (e : Event.t) : Event.t :=
  Event.mk (Event.event_id e) title (Event.start_time e) (Event.end_time e) description.

Definition set_times (start_time end_time : datetime) (e : Event.t) : Event.t :=
  Event.mk (Event.event_id e) (Event.title e) start_time end_time (Event.description e).

(** [event.allocations] and [resource.allocations], the two relationships. *)
Definition event_allocations (id : Z) (db : DB) : list Allocation :=
  filter (fun a => EventResourceAllocation.event_id a =? id) (allocations db).

Definition resource_allocations (id : Z) (db : DB) : list Allocation :=
  filter (fun a => EventResourceAllocation.resource_id a =? id) (allocations db).

(** [db.session.delete(event)]: [cascade='all, delete-orphan'] deletes the
    event's allocations with it. *)
Definition delete_event_row (id : Z) (db : DB) : DB :=
  mkDB (filter (fun e => negb (Event.event_id e =? id)) (events db))
       (resources db)
       (filter (fun a => negb (EventResourceAllocation.event_id a =? id)) (allocations db)).

Definition insert_resource (name type : string) (db : DB) : DB :=
  mkDB (events db)
       (resources db
          ++ [Resource.mk (next_id (map Resource.resource_id (resources db))) name type])
       (allocations db).

Definition update_resource (id : Z) (f : Resource.t -> Resource.t) (db : DB) : DB :=
  mkDB (events db)
       (map (fun r => if Resource.resource_id r =? id then f r else r) (resources db))
       (allocations db).

Definition delete_resource_row (id : Z) (db : DB) : DB :=
  mkDB (events db)
       (filter (fun r => negb (Resource.resource_id r =? id)) (resources db))
       (filter (fun a => negb (EventResourceAllocation.resource_id a =? id)) (allocations db)).

Definition delete_allocation_row (id : Z) (db : DB) : DB :=
  mkDB (events db) (resources db)
       (filter (fun a => negb (EventResourceAllocation.allocation_id a =? id)) (allocations db)).

Definition insert_allocation_row (event_id resource_id : Z)
    (start_time end_time : option datetime) (db : DB) : DB :=
  mkDB (events db) (resources db)
       (allocations db
          ++ [EventResourceAllocation.mk
                (next_id (map EventResourceAllocation.allocation_id (allocations db)))
                event_id resource_id start_time end_time]).

(** [filter_by(event_id=..., resource_id=...).first()]. *)
Definition first_allocation (event_id resource_id : Z) (db : DB) : option Allocation :=
  find (fun a => (EventResourceAllocation.event_id a =? event_id)
                 && (EventResourceAllocation.resource_id a =? resource_id))
       (allocations db).

(** Python's truth value of a list. *)
Definition truthy {A} (l : list A) : bool :=
  match l with [] => false | _ :: _ => true end.

(** ** The routes that write *)

(** The parsed POST form of the event pages. *)
Record EventForm := mkEventForm {
  form_title : string;
  form_start_time : datetime;
  form_end_time : datetime;
  form_description : string
}.

Record ResourceForm := mkResourceForm {
  form_resource_name : string;
  form_resource_type : string
}.

Inductive Endpoint :=
| url_events
| url_add_event
| url_edit_event (event_id : Z)
| url_resources
| url_allocations
| url_add_allocation.

(** The flashed messages. *)
Inductive Flash :=
| End_time_must_be_after_start_time
| Event_created_successfully
| Time_conflict_detected_for_resources (names : list string)
| Event_updated_successfully
| Event_deleted_successfully
| Resource_created_successfully
| Resource_updated_successfully
| Resource_deleted_successfully
| This_resource_is_already_allocated_to_this_event
| Resource_conflict_detected
| Resource_allocated_successfully
| Allocation_removed_successfully.

(** Every POST ends in [flash(...)] and [redirect(url_for(...))]. *)
Inductive Response :=
| Redirect (to : Endpoint) (message : Flash).

Section Routes.

(** Whether the database enforces the foreign keys of
    [event_resource_allocations] (SQLite does so only under
    [PRAGMA foreign_keys=ON]; the application never sets it). *)
Variable enforce_fk : bool.

(** [db.session.add(new_allocation)]: the INSERT of the flush fails when the
    database checks the foreign keys and one of them dangles. *)
Definition add_allocation_row (event_id resource_id : Z)
    (start_time end_time : option datetime) : Req unit :=
  ev <- query (fun db => get_event db event_id) ;;
  res <- query (fun db => get_resource db resource_id) ;;
  match ev, res with
  | Some _, Some _ =>
      update (insert_allocation_row event_id resource_id start_time end_time)
  | _, _ =>
      if enforce_fk then raise IntegrityError
      else update (insert_allocation_row event_id resource_id start_time end_time)
  end.

Definition add_event (form : EventForm) : Req Response :=
  let title := form_title form in
  let start_time := form_start_time form in
  let end_time := form_end_time form in
  let description := form_description form in
  if start_time >=? end_time then
    ret (Redirect url_add_event End_time_must_be_after_start_time)
  else
    update (insert_event title start_time end_time description) ;;;
    commit ;;;
    ret (Redirect url_events Event_created_successfully).

(** The body of the loop over [event.allocations] in [edit_event]. *)
Definition edit_event_check (event_id : Z) (start_time end_time : datetime)
    (conflicts_found : list string) (allocation : Allocation) : Req (list string) :=
  let rid := EventResourceAllocation.resource_id allocation in
  conflicts <- query (fun db => check_conflicts db event_id rid start_time end_time) ;;
  if truthy conflicts then
    resource <- query (fun db => get_resource db rid) ;;
    r <- attr_of resource ;;
    ret (conflicts_found ++ [Resource.resource_name r])
  else ret conflicts_found.

Definition edit_event (event_id : Z) (form : EventForm) : Req Response :=
  event <- get_or_404 get_event event_id ;;
  update (update_event event_id
            (set_title_description (form_title form) (form_description form))) ;;;
  let start_time := form_start_time form in
  let end_time := form_end_time form in
  if start_time >=? end_time then
    ret (Redirect (url_edit_event event_id) End_time_must_be_after_start_time)
  else
    allocs <- query (event_allocations event_id) ;;
    conflicts_found <-
      for_each allocs [] (edit_event_check event_id start_time end_time) ;;
    if truthy conflicts_found then
      ret (Redirect (url_edit_event event_id)
             (Time_conflict_detected_for_resources conflicts_found))
    else
      update (update_event event_id (set_times start_time end_time)) ;;;
      commit ;;;
      ret (Redirect url_events Event_updated_successfully).

Definition delete_event (event_id : Z) : Req Response :=
  _ <- get_or_404 get_event event_id ;;
  update (delete_event_row event_id) ;;;
  commit ;;;
  ret (Redirect url_events Event_deleted_successfully).

Definition add_resource (form : ResourceForm) : Req Response :=
  update (insert_resource (form_resource_name form) (form_resource_type form)) ;;;
  commit ;;;
  ret (Redirect url_resources Resource_created_successfully).

Definition edit_resource (resource_id : Z) (form : ResourceForm) : Req Response :=
  _ <- get_or_404 get_resource resource_id ;;
  update (update_resource resource_id
            (fun r => Resource.mk (Resource.resource_id r)
                        (form_resource_name form) (form_resource_type form))) ;;;
  commit ;;;
  ret (Redirect url_resources Resource_updated_successfully).

Definition delete_resource (resource_id : Z) : Req Response :=
  _ <- get_or_404 get_resource resource_id ;;
  update (delete_resource_row resource_id) ;;;
  commit ;;;
  ret (Redirect url_resources Resource_deleted_successfully).

(** The first query binds both form integers, so it is there that one that
    does not fit 64 bits raises. *)
Definition add_allocation (event_id resource_id : Z) : Req Response :=
  if fits_int64 event_id && fits_int64 resource_id then
    existing <- query (first_allocation event_id resource_id) ;;
    match existing with
    | Some _ =>
        ret (Redirect url_add_allocation This_resource_is_already_allocated_to_this_event)
    | None =>
        event <- query (fun db => get_event db event_id) ;;
        ev <- attr_of event ;;
        conflicts <- query (fun db => check_conflicts db event_id resource_id
                                        (Event.start_time ev) (Event.end_time ev)) ;;
        if truthy conflicts then
          ret (Redirect url_add_allocation Resource_conflict_detected)
        else
          add_allocation_row event_id resource_id
            (Some (Event.start_time ev)) (Some (Event.end_time ev)) ;;;
          commit ;;;
          ret (Redirect url_allocations Resource_allocated_successfully)
    end
  else raise OverflowError.

Definition delete_allocation (allocation_id : Z) : Req Response :=
  _ <- get_or_404 get_allocation allocation_id ;;
  update (delete_allocation_row allocation_id) ;;;
  commit ;;;
  ret (Redirect url_allocations Allocation_removed_successfully).

(** The POST requests of the application. *)
Inductive Request :=
| AddEvent (form : EventForm)
| EditEvent (event_id : Z) (form : EventForm)
| DeleteEvent (event_id : Z)
| AddResource (form : ResourceForm)
| EditResource (resource_id : Z) (form : ResourceForm)
| DeleteResource (resource_id : Z)
| AddAllocation (event_id resource_id : Z)
| DeleteAllocation (allocation_id : Z).

Definition handle (r : Request) : Req Response :=
  match r with
  | AddEvent form => add_event form
  | EditEvent id form => edit_event id form
  | DeleteEvent id => delete_event id
  | AddResource form => add_resource form
  | EditResource id form => edit_resource id form
  | DeleteResource id => delete_resource id
  | AddAllocation eid rid => add_allocation eid rid
  | DeleteAllocation id => delete_allocation id
  end.

Definition serve (r : Request) (db : DB) : Outcome Response * DB :=
  run_request (handle r) db.

(** Requests served one after the other. *)
Definition serve_all (rs : list Request) (db : DB) : DB :=
  fold_left (fun d r => snd (serve r d)) rs db.

(** The states the application can reach from the empty database. *)
Inductive reachable : DB -> Prop :=
| reach_empty : reachable empty_db
| reach_serve db r : reachable db -> reachable (snd (serve r db)).

End Routes.

(** ** The routes that only read *)

(** One row of the conflicts page: [event2] and [resource] are whatever
    [Model.query.get] returned. *)
Record ConflictRow := mkConflictRow {
  event1 : Event.t;
  event2 : option Event.t;
  resource : option Resource.t
}.

(** The inner loop of [conflicts]: one row per conflicting allocation. *)
Definition conflicts_emit (ev : Event.t) (resource : option Resource.t)
    (all_conflicts : list ConflictRow) (conflict : Allocation) : Req (list ConflictRow) :=
  conflicting_event <-
    query (fun db => get_event db (EventResourceAllocation.event_id conflict)) ;;
  ret (all_conflicts ++ [mkConflictRow ev conflicting_event resource]).

(** The body of the loop over all allocations. *)
Definition conflicts_step (all_conflicts : list ConflictRow) (allocation : Allocation)
    : Req (list ConflictRow) :=
  event <- query (fun db => get_event db (EventResourceAllocation.event_id allocation)) ;;
  resource <- query (fun db => get_resource db (EventResourceAllocation.resource_id allocation)) ;;
  ev <- attr_of event ;;
  found <- query (fun db => check_conflicts db
                              (EventResourceAllocation.event_id allocation)
                              (EventResourceAllocation.resource_id allocation)
                              (Event.start_time ev) (Event.end_time ev)) ;;
  for_each found all_conflicts (conflicts_emit ev resource).

Definition conflicts : Req (list ConflictRow) :=
  allocs <- query allocations ;;
  for_each allocs [] conflicts_step.

(** *** Python numbers *)

(** [float(n)] for an integer that fits 63 bits (exact below [2^53]). *)
Definition float_of_int (n : Z) : float :=
  if n <? 0 then PrimFloat.opp (PrimFloat.of_uint63 (Uint63.of_Z (- n)))
  else PrimFloat.of_uint63 (Uint63.of_Z n).

(** [a / b] on integers, for [b <> 0]: the quotient as a double. *)
Definition true_div (a b : Z) : float :=
  PrimFloat.div (float_of_int a) (float_of_int b).

(** The integer part of the magnitude [m * 2^e]. *)
Definition trunc_mag (m : positive) (e : Z) : Z :=
  match e with
  | Z0 => Zpos m
  | Zpos p => Z.shiftl (Zpos m) (Zpos p)
  | Zneg p => Z.shiftr (Zpos m) (Zpos p)
  end.

(** [int(x)]: truncation toward zero; [ValueError] on NaN and
    [OverflowError] on an infinity. *)
Definition int_of_float (x : float) : Outcome Z :=
  match Prim2SF x with
  | S754_zero _ => Return 0
  | S754_finite s m e => Return (if s then - trunc_mag m e else trunc_mag m e)
  | S754_infinity _ => Raise OverflowError
  | S754_nan => Raise ValueError
  end.

(** [m * 2^e * 100] rounded to the nearest integer, ties to even. *)
Definition round_half_even_cents (m : positive) (e : Z) : Z :=
  match e with
  | Z0 => Zpos m * 100
  | Zpos p => Z.shiftl (Zpos m * 100) (Zpos p)
  | Zneg p =>
      let den := Z.shiftl 1 (Zpos p) in
      let q := (Zpos m * 100) / den in
      let r := (Zpos m * 100) mod den in
      if (2 * r >? den) || ((2 * r =? den) && Z.odd q) then q + 1 else q
  end.

(** [round(x, 2)] on a float: the decimal with two digits nearest to the exact
    value of [x] (ties to even), read back as the nearest double, with the
    sign of [x] (a negative [x] nearer to zero than half a cent gives [-0.0]);
    zeros, NaN and infinities are returned as they are. *)
Definition round2 (x : float) : float :=
  match Prim2SF x with
  | S754_finite s m e =>
      let r := true_div (round_half_even_cents m e) 100 in
      if s then PrimFloat.opp r else r
  | _ => x
  end.

(** *** Dashboard *)

Record Dashboard := mkDashboard {
  active_events : Z;
  resource_load : Z;
  conflicts_count : Z;
  pending_approvals : Z;
  latest_allocations : list Allocation
}.

(** [query(EventResourceAllocation.resource_id).distinct().count()]. *)
Definition allocated_resources (db : DB) : Z :=
  Z.of_nat (List.length (nodup Z.eq_dec (map EventResourceAllocation.resource_id (allocations db)))).

Definition total_resources (db : DB) : Z :=
  Z.of_nat (List.length (resources db)).

(** [order_by(allocation_id.desc())]. *)
Fixpoint insert_desc (a : Allocation) (l : list Allocation) : list Allocation :=
  match l with
  | [] => [a]
  | b :: l' =>
      if EventResourceAllocation.allocation_id b <=? EventResourceAllocation.allocation_id a
      then a :: l
      else b :: insert_desc a l'
  end.

Definition order_by_allocation_id_desc (l : list Allocation) : list Allocation :=
  fold_right insert_desc [] l.

(** [int((allocated_resources / total_resources) * 100) if total_resources
    else 0]. *)
Definition resource_load_of (allocated total : Z) : Outcome Z :=
  if total =? 0 then Return 0
  else int_of_float (PrimFloat.mul (true_div allocated total) (float_of_int 100)).

Definition index (now : datetime) : Req Dashboard :=
  active <- query (fun db =>
              Z.of_nat (List.length (filter (fun e => (Event.start_time e <=? now)
                                                      && (Event.end_time e >=? now))
                                       (events db)))) ;;
  total <- query total_resources ;;
  allocated <- query allocated_resources ;;
  load <- lift (resource_load_of allocated total) ;;
  latest <- query (fun db => firstn 5 (order_by_allocation_id_desc (allocations db))) ;;
  ret (mkDashboard active load 0 0 latest).


(** *** Report *)

(** [datetime(y, m, d, hh, mm, ss)], through the day number of the proleptic
    Gregorian calendar. *)
Definition days_from_civil (y m d : Z) : Z :=
  let y' := if m <=? 2 then y - 1 else y in
  let era := y' / 400 in
  let yoe := y' - era * 400 in
  let mp := (m + 9) mod 12 in
  let doy := (153 * mp + 2) / 5 + d - 1 in
  let doe := yoe * 365 + yoe / 4 - yoe / 100 + doy in
  era * 146097 + doe - 719468.

Definition mk_datetime (y m d hh mm ss : Z) : datetime :=
  days_from_civil y m d * 86400 + hh * 3600 + mm * 60 + ss.

(** [dt.replace(hour=hh, minute=mm, second=ss)]. *)
Definition replace_time (dt : datetime) (hh mm ss : Z) : datetime :=
  dt - dt mod 86400 + hh * 3600 + mm * 60 + ss.

Record ReportRow := mkReportRow {
  report_resource : Resource.t;
  total_hours : float;
  upcoming_bookings : list Event.t
}.

(** [(overlap_end - overlap_start).total_seconds() / 3600]. *)
Definition hours_between (overlap_start overlap_end : datetime) : float :=
  PrimFloat.div (float_of_int (overlap_end - overlap_start)) (float_of_int 3600).

(** The body of the loop over the allocations of one resource; [end_date]
    is already moved to the end of its day. *)
Definition report_for_allocation (start_date end_date now : datetime)
    (acc : float * list Event.t) (allocation : Allocation)
    : Req (float * list Event.t) :=
  let (total_hours, upcoming_bookings) := acc in
  event <- query (fun db => get_event db (EventResourceAllocation.event_id allocation)) ;;
  ev <- attr_of event ;;
  let total_hours :=
    if (Event.start_time ev <=? end_date) && (Event.end_time ev >=? start_date)
    then
      let overlap_start := Z.max (Event.start_time ev) start_date in
      let overlap_end := Z.min (Event.end_time ev) end_date in
      PrimFloat.add total_hours (hours_between overlap_start overlap_end)
    else total_hours in
  let upcoming_bookings :=
    if Event.start_time ev >? now then upcoming_bookings ++ [ev]
    else upcoming_bookings in
  ret (total_hours, upcoming_bookings).

(** The body of the loop over the resources. *)
Definition report_for_resource (start_date end_date now : datetime)
    (report_data : list ReportRow) (resource : Resource.t) : Req (list ReportRow) :=
  allocs <- query (resource_allocations (Resource.resource_id resource)) ;;
  acc <- for_each allocs (0%float, [])
           (report_for_allocation start_date end_date now) ;;
  ret (report_data ++ [mkReportRow resource (round2 (fst acc)) (snd acc)]).

(** The POST branch of [report]; [start_date] and [end_date] are the parsed
    form dates (midnight), [now] the clock read by [datetime.now()].  The sum
    starts from the float zero, where Python starts from the integer [0]. *)
Definition report (start_date end_date now : datetime) : Req (list ReportRow) :=
  let end_date := replace_time end_date 23 59 59 in
  rs <- query resources ;;
  for_each rs [] (report_for_resource start_date end_date now).

(** ** Notions used in the statements *)

(** An allocation row without its cached times. *)
Definition without_cache (a : Allocation) : Allocation :=
  EventResourceAllocation.mk
    (EventResourceAllocation.allocation_id a)
    (EventResourceAllocation.event_id a)
    (EventResourceAllocation.resource_id a)
    None None.

Definition without_cached_times (db : DB) : DB :=
  mkDB (events db) (resources db) (map without_cache (allocations db)).

Definition valid_event (e : Event.t) : Prop :=
  Event.start_time e < Event.end_time e.

(** The overlap filter on two event rows, the first one in the role of the
    stored event. *)
Definition events_overlap (existing candidate : Event.t) : bool :=
  overlaps (Event.start_time existing) (Event.end_time existing)
           (Event.start_time candidate) (Event.end_time candidate).

(** What the handlers keep true of the stored database: primary keys are
    unique, events have [start < end], every allocation has its event, and no
    resource is allocated to two events that overlap. *)
Record store_ok (db : DB) : Prop := mk_store_ok {
  ok_event_ids : NoDup (map Event.event_id (events db));
  ok_allocation_ids : NoDup (map EventResourceAllocation.allocation_id (allocations db));
  ok_valid : forall e, In e (events db) -> valid_event e;
  ok_owner : forall a, In a (allocations db) ->
             exists e, In e (events db)
                       /\ Event.event_id e = EventResourceAllocation.event_id a;
  ok_no_conflict : forall a1 a2 e1 e2,
      In a1 (allocations db) -> In a2 (allocations db) ->
      In e1 (events db) -> In e2 (events db) ->
      Event.event_id e1 = EventResourceAllocation.event_id a1 ->
      Event.event_id e2 = EventResourceAllocation.event_id a2 ->
      EventResourceAllocation.resource_id a1 = EventResourceAllocation.resource_id a2 ->
      EventResourceAllocation.event_id a1 <> EventResourceAllocation.event_id a2 ->
      events_overlap e1 e2 = false
}.

(** The rows [check_conflicts] returns for one allocation. *)
Definition conflict_rows (evs : list Event.t) (eid rid : Z) (st et : datetime)
    (a : Allocation) : list Allocation :=
  map fst (filter (conflict_filter eid rid st et)
             (map (pair a)
                (filter (fun e => Event.event_id e =? EventResourceAllocation.event_id a)
                   evs))).

(** Primary keys are unique in each table. *)
Record unique_keys (db : DB) : Prop := mk_unique_keys {
  unique_event_ids : NoDup (map Event.event_id (events db));
  unique_resource_ids : NoDup (map Resource.resource_id (resources db));
  unique_allocation_ids :
    NoDup (map EventResourceAllocation.allocation_id (allocations db))
}.

(** The allocation has its event in the events table. *)
Definition has_event (db : DB) (a : Allocation) : Prop :=
  exists e, In e (events db)
            /\ Event.event_id e = EventResourceAllocation.event_id a.

(** [res] is what the resources table holds under the key [k]: the stored
    resource with that key, or nothing when no stored resource has it. *)
Definition resource_of_key (db : DB) (k : Z) (res : option Resource.t) : Prop :=
  match res with
  | Some R => In R (resources db) /\ Resource.resource_id R = k
  | None => forall R, In R (resources db) -> Resource.resource_id R <> k
  end.

(** The rows of the conflicts page, each with the allocation the outer loop
    was at and the conflicting allocation the inner loop was at. *)
Definition emissions_of (db : DB) (a : Allocation)
    : list (Allocation * Allocation * ConflictRow) :=
  match get_event db (EventResourceAllocation.event_id a) with
  | Some ev =>
      map (fun c =>
             (a, c,
              mkConflictRow ev
                (get_event db (EventResourceAllocation.event_id c))
                (get_resource db (EventResourceAllocation.resource_id a))))
        (check_conflicts db
           (EventResourceAllocation.event_id a)
           (EventResourceAllocation.resource_id a)
           (Event.start_time ev) (Event.end_time ev))
  | None => []
  end.

Definition conflict_emissions (db : DB) : list (Allocation * Allocation * ConflictRow) :=
  flat_map (emissions_of db) (allocations db).

(** The filter of [check_conflicts] on one allocation, its event looked up by
    key. *)
Definition conflicts_with (db : DB) (eid rid : Z) (st et : datetime)
    (a : Allocation) : bool :=
  match get_event db (EventResourceAllocation.event_id a) with
  | Some e => conflict_filter eid rid st et (a, e)
  | None => false
  end.

(** The emissions made for the allocation [a] against the allocation [b]
    (rows are identified by their primary keys). *)
Definition emitted_for (a b : Allocation)
    (em : Allocation * Allocation * ConflictRow) : bool :=
  (EventResourceAllocation.allocation_id (fst (fst em))
   =? EventResourceAllocation.allocation_id a)
  && (EventResourceAllocation.allocation_id (snd (fst em))
      =? EventResourceAllocation.allocation_id b).

(** The report, as the specification words it: per resource, the events of
    its allocations that meet the window contribute the hours between
    [max(event.start, start_date)] and [min(event.end, end_date)]. *)
Definition owning_events (db : DB) (allocs : list Allocation) : list Event.t :=
  flat_map
    (fun a =>
       match get_event db (EventResourceAllocation.event_id a) with
       | Some ev => [ev]
       | None => []
       end)
    allocs.

Definition in_window (start_date end_date : datetime) (ev : Event.t) : bool :=
  (Event.start_time ev <=? end_date) && (Event.end_time ev >=? start_date).

Definition overlap_hours (start_date end_date : datetime) (ev : Event.t) : float :=
  hours_between (Z.max (Event.start_time ev) start_date)
                (Z.min (Event.end_time ev) end_date).

Definition report_row (db : DB) (start_date end_date now : datetime)
    (r : Resource.t) : ReportRow :=
  let evs := owning_events db (resource_allocations (Resource.resource_id r) db) in
  mkReportRow r
    (round2 (fold_left PrimFloat.add
               (map (overlap_hours start_date end_date)
                  (filter (in_window start_date end_date) evs))
               0%float))
    (filter (fun ev => Event.start_time ev >? now) evs).

(** The dashboard percentage against exact arithmetic: the floor of
    [100 * allocated / total], or one less where [total] divides
    [100 * allocated] and the double product falls just short of the
    integer. *)
Definition load_ok (allocated total : Z) : bool :=
  match resource_load_of allocated total with
  | Return n =>
      (n =? 100 * allocated / total)
      || ((n =? 100 * allocated / total - 1) && ((100 * allocated) mod total =? 0))
  | Raise _ => false
  end.

Definition upto (n : nat) : list Z := map Z.of_nat (seq 0 (S n)).

Definition load_table_ok (n : nat) : bool :=
  forallb (fun total => (total =? 0) || forallb (fun allocated => load_ok allocated total) (upto n))
    (upto n).

(** The messages flashed after a commit. *)
Definition success_message (m : Flash) : bool :=
  match m with
  | Event_created_successfully
  | Event_updated_successfully
  | Event_deleted_successfully
  | Resource_created_successfully
  | Resource_updated_successfully
  | Resource_deleted_successfully
  | Resource_allocated_successfully
  | Allocation_removed_successfully => true
  | End_time_must_be_after_start_time
  | Time_conflict_detected_for_resources _
  | This_resource_is_already_allocated_to_this_event
  | Resource_conflict_detected => false
  end.

(** The (event, resource) pair an allocation binds. *)
Definition pair_key (a : Allocation) : Z * Z :=
  (EventResourceAllocation.event_id a, EventResourceAllocation.resource_id a).

(** The cached times of every allocation are the times of its event. *)
Definition cache_consistent (db : DB) : Prop :=
  forall a e,
    In a (allocations db) ->
    get_event db (EventResourceAllocation.event_id a) = Some e ->
    EventResourceAllocation.start_time a = Some (Event.start_time e)
    /\ EventResourceAllocation.end_time a = Some (Event.end_time e).

Definition is_edit_event (r : Request) : bool :=
  match r with
  | EditEvent _ _ => true
  | _ => false
  end.

(** ** Example databases *)

Local Open Scope string_scope.

(** Event A 10:00-11:00, event B 11:00-12:00 and event C 10:30-10:45 of one
    day (as seconds of that day), one room, A and B allocated to it. *)
Definition form_A : EventForm := mkEventForm "A" 36000 39600 "".
Definition form_B : EventForm := mkEventForm "B" 39600 43200 "".
Definition form_C : EventForm := mkEventForm "C" 37800 38700 "".
Definition form_room : ResourceForm := mkResourceForm "Room" "room".

Definition example_requests : list Request :=
  [AddEvent form_A; AddEvent form_B; AddEvent form_C; AddResource form_room;
   AddAllocation 1 1; AddAllocation 2 1].

Definition example_db : DB := serve_all false example_requests empty_db.

(** One event with one allocation. *)
Definition single_db : DB :=
  serve_all false [AddEvent form_A; AddResource form_room; AddAllocation 1 1] empty_db.

(** One event and no resource. *)
Definition event_only_db : DB := serve_all false [AddEvent form_A] empty_db.

(** Events A (10:00-11:00) and C (10:30-10:45) both allocated to room 1, as
    two writers racing each other could leave them. *)
Definition double_booked_db : DB :=
  mkDB (events example_db) (resources example_db)
       [EventResourceAllocation.mk 1 1 1 (Some 36000) (Some 39600);
        EventResourceAllocation.mk 2 3 1 (Some 37800) (Some 38700)].

(** [double_booked_db] with one more allocation, of an event 9 that is not
    stored. *)
Definition dangling_db : DB :=
  mkDB (events double_booked_db) (resources double_booked_db)
       (allocations double_booked_db
          ++ [EventResourceAllocation.mk 3 9 1 None None]).

(** One room booked once, on 2024-01-02 from 09:00 to 17:00. *)
Definition booked_day_db : DB :=
  mkDB [Event.mk 1 "Workshop" (mk_datetime 2024 1 2 9 0 0) (mk_datetime 2024 1 2 17 0 0) ""]
       [Resource.mk 1 "Room" "room"]
       [EventResourceAllocation.mk 1 1 1
          (Some (mk_datetime 2024 1 2 9 0 0)) (Some (mk_datetime 2024 1 2 17 0 0))].


(** [single_db] with other cached times on its allocation. *)
Definition single_db_recached : DB :=
  mkDB (events single_db) (resources single_db)
       [EventResourceAllocation.mk 1 1 1 (Some 0) None].

Local Close Scope string_scope.

(** ** Theorems *)

(** The four-clause filter, clause by clause. *)
Lemma overlaps_spec a b c d :
  overlaps a b c d = true <->
  (a <= c /\ b > c) \/ (a < d /\ b >= d) \/ (a >= c /\ b <= d) \/ a = c.
Proof.
  unfold overlaps.
  rewrite !orb_true_iff, !andb_true_iff.
  rewrite Z.leb_le, Z.ltb_lt, Z.geb_le, Z.eqb_eq.
  rewrite !Z.gtb_ltb, !Z.ltb_lt, Z.geb_le, Z.leb_le.
  lia.
Qed.

Lemma in_join_event db a e :
  In (a, e) (join_event db) <->
  In a (allocations db) /\ In e (events db)
  /\ Event.event_id e = EventResourceAllocation.event_id a.
Proof.
  unfold join_event. rewrite in_flat_map. split.
  - intros (a' & Ha & Hin). apply in_map_iff in Hin.
    destruct Hin as (e' & Heq & He). inversion Heq; subst.
    apply filter_In in He. destruct He as [He Hid].
    apply Z.eqb_eq in Hid. auto.
  - intros (Ha & He & Hid). exists a. split; [assumption|].
    apply in_map. apply filter_In. split; [assumption|].
    now apply Z.eqb_eq.
Qed.

Lemma in_check_conflicts db event_id resource_id start_time end_time a :
  In a (check_conflicts db event_id resource_id start_time end_time) <->
  In a (allocations db)
  /\ EventResourceAllocation.resource_id a = resource_id
  /\ EventResourceAllocation.event_id a <> event_id
  /\ exists e,
      In e (events db)
      /\ Event.event_id e = EventResourceAllocation.event_id a
      /\ overlaps (Event.start_time e) (Event.end_time e) start_time end_time = true.
Proof.
  unfold check_conflicts. rewrite in_map_iff. split.
  - intros ([a' e] & Hfst & Hin). simpl in Hfst. subst a'.
    apply filter_In in Hin. destruct Hin as [Hj Hf].
    apply in_join_event in Hj. destruct Hj as (Ha & He & Hid).
    unfold conflict_filter in Hf.
    apply andb_true_iff in Hf. destruct Hf as [Hf Hov].
    apply andb_true_iff in Hf. destruct Hf as [Hr Hne].
    apply Z.eqb_eq in Hr. apply negb_true_iff, Z.eqb_neq in Hne.
    repeat split; try assumption. exists e. auto.
  - intros (Ha & Hr & Hne & e & He & Hid & Hov).
    exists (a, e). split; [reflexivity|].
    apply filter_In. split.
    + apply in_join_event. auto.
    + unfold conflict_filter.
      rewrite !andb_true_iff, negb_true_iff, Z.eqb_eq, Z.eqb_neq.
      auto.
Qed.

(** C1. The result of [check_conflicts] holds exactly the stored allocations
    on the given resource, of another event, whose owning event satisfies the
    four-clause disjunction against the given interval; run as a query of a
    request, it leaves both the stored and the pending database as they were. *)
Theorem check_conflicts_exact db event_id resource_id start_time end_time :
  (forall a,
      In a (check_conflicts db event_id resource_id start_time end_time) <->
      In a (allocations db)
      /\ EventResourceAllocation.resource_id a = resource_id
      /\ EventResourceAllocation.event_id a <> event_id
      /\ exists e,
          In e (events db)
          /\ Event.event_id e = EventResourceAllocation.event_id a
          /\ ((Event.start_time e <= start_time /\ Event.end_time e > start_time)
              \/ (Event.start_time e < end_time /\ Event.end_time e >= end_time)
              \/ (Event.start_time e >= start_time /\ Event.end_time e <= end_time)
              \/ Event.start_time e = start_time))
  /\ forall s,
      query (fun d => check_conflicts d event_id resource_id start_time end_time) s
      = (Return (check_conflicts (pending s) event_id resource_id start_time end_time), s).
Proof.
  split; [|reflexivity].
  intros a. rewrite in_check_conflicts.
  split; intros (Ha & Hr & Hne & e & He & Hid & Hov);
    (repeat split; try assumption); exists e;
    (repeat split; try assumption); now apply overlaps_spec.
Qed.

(** For intervals with [start < end] on both sides the four clauses are the
    half-open overlap test. *)
Lemma overlaps_canonical a b c d :
  a < b -> c < d -> overlaps a b c d = canonical_overlap a b c d.
Proof.
  intros Hab Hcd.
  apply eq_true_iff_eq. rewrite overlaps_spec. unfold canonical_overlap.
  rewrite andb_true_iff, Z.gtb_ltb, !Z.ltb_lt. lia.
Qed.

(** C2, as stated in the specification, does not hold: on intervals with
    [start < end] the four clauses and the simplification never disagree. *)
Lemma no_valid_intervals_disagree :
  ~ exists ev_start ev_end start_time end_time : datetime,
      ev_start < ev_end /\ start_time < end_time
      /\ overlaps ev_start ev_end start_time end_time
         <> canonical_overlap ev_start ev_end start_time end_time.
Proof.
  intros (a & b & c & d & Hab & Hcd & Hne).
  apply Hne. now apply overlaps_canonical.
Qed.

(** C2, amended.  For every pair of intervals that both satisfy
    [start < end], the four-clause predicate of [check_conflicts] and the
    simplification [existing.start < candidate.end AND existing.end >
    candidate.start] give the same answer; they can differ only when an
    interval is empty or reversed, as for the existing interval [5, 5]
    against the candidate [5, 10]. *)
Theorem overlaps_is_canonical_on_valid_intervals :
  (forall ev_start ev_end start_time end_time : datetime,
      ev_start < ev_end -> start_time < end_time ->
      overlaps ev_start ev_end start_time end_time
      = canonical_overlap ev_start ev_end start_time end_time)
  /\ overlaps 5 5 5 10 <> canonical_overlap 5 5 5 10.
Proof.
  split.
  - intros. now apply overlaps_canonical.
  - discriminate.
Qed.

Lemma overlaps_is_canonical_on_valid_intervals_witness :
  36000 < 39600 /\ 39600 < 43200
  /\ overlaps 36000 39600 39600 43200 = canonical_overlap 36000 39600 39600 43200.
Proof.
  split; [lia|]. split; [lia|].
  apply (proj1 overlaps_is_canonical_on_valid_intervals); lia.
Defined.

(** Under [start < end] the filter does not depend on which interval is the
    stored one. *)
Lemma overlaps_sym a b c d :
  a < b -> c < d -> overlaps a b c d = overlaps c d a b.
Proof.
  intros Hab Hcd.
  rewrite !overlaps_canonical by assumption.
  unfold canonical_overlap. rewrite !Z.gtb_ltb. apply andb_comm.
Qed.

Lemma for_each_cons A B (x : A) (l : list A) (acc : B) (body : B -> A -> Req B) s :
  for_each (x :: l) acc body s
  = match body acc x s with
    | (Return acc', s') => for_each l acc' body s'
    | (Raise e, s') => (Raise e, s')
    end.
Proof. reflexivity. Qed.

Lemma edit_event_check_run event_id start_time end_time acc x s :
  edit_event_check event_id start_time end_time acc x s
  = match check_conflicts (pending s) event_id
            (EventResourceAllocation.resource_id x) start_time end_time with
    | [] => (Return acc, s)
    | _ :: _ =>
        match get_resource (pending s) (EventResourceAllocation.resource_id x) with
        | Some r => (Return (acc ++ [Resource.resource_name r]), s)
        | None => (Raise AttributeError, s)
        end
    end.
Proof.
  unfold edit_event_check, bind, query. cbv beta iota zeta.
  destruct (check_conflicts _ _ _ _ _); [reflexivity|].
  cbn [truthy]. cbv iota.
  destruct (get_resource _ _); reflexivity.
Qed.

(** What the loop of [edit_event] computes: it leaves the session alone, and
    it ends with an empty [conflicts_found] only if it started with one and
    no allocation of the event had a conflict. *)
Lemma edit_event_loop_spec event_id start_time end_time allocs acc s :
  snd (for_each allocs acc (edit_event_check event_id start_time end_time) s) = s
  /\ forall names,
      fst (for_each allocs acc (edit_event_check event_id start_time end_time) s)
      = Return names ->
      truthy names = false ->
      acc = []
      /\ forall a, In a allocs ->
           check_conflicts (pending s) event_id
             (EventResourceAllocation.resource_id a) start_time end_time = [].
Proof.
  revert acc. induction allocs as [|x l IH]; intros acc.
  - simpl. split; [reflexivity|]. intros names Hn Ht. inversion Hn; subst.
    destruct names; [|discriminate]. split; [reflexivity | intros a []].
  - rewrite for_each_cons, edit_event_check_run.
    destruct (check_conflicts (pending s) event_id
                (EventResourceAllocation.resource_id x) start_time end_time)
      as [|c cs] eqn:Hc.
    + destruct (IH acc) as [IHs IHn]. split; [exact IHs|].
      intros names Hn Ht. destruct (IHn names Hn Ht) as [Hacc Hall].
      split; [exact Hacc|]. intros a [<-|Ha]; [exact Hc | now apply Hall].
    + destruct (get_resource (pending s) (EventResourceAllocation.resource_id x))
        as [r|].
      * destruct (IH (acc ++ [Resource.resource_name r])) as [IHs IHn].
        split; [exact IHs|].
        intros names Hn Ht. destruct (IHn names Hn Ht) as [Hacc _].
        now destruct acc.
      * simpl. split; [reflexivity | discriminate].
Qed.

(** The two ways a POST to [edit_event] can end: nothing is stored, or the
    event exists, the new interval is valid, no allocation of the event has a
    conflict, and the rewritten event row is stored. *)
Lemma edit_event_run db event_id form :
  let db1 := update_event event_id
               (set_title_description (form_title form) (form_description form)) db in
  let r := run_request (edit_event event_id form) db in
  (snd r = db /\ fst r <> Return (Redirect url_events Event_updated_successfully))
  \/ (fst r = Return (Redirect url_events Event_updated_successfully)
      /\ snd r = update_event event_id
                   (set_times (form_start_time form) (form_end_time form)) db1
      /\ get_event db event_id <> None
      /\ form_start_time form < form_end_time form
      /\ forall a, In a (event_allocations event_id db1) ->
           check_conflicts db1 event_id (EventResourceAllocation.resource_id a)
             (form_start_time form) (form_end_time form) = []).
Proof.
  intros db1 r.
  destruct r as [o db'] eqn:E. subst r. cbn [fst snd].
  revert E. unfold run_request, edit_event, get_or_404.
  unfold bind at 1. unfold bind at 1. unfold query at 1.
  cbv beta iota. cbn [pending].
  destruct (get_event db event_id) as [ev|] eqn:Hev.
  2:{ destruct (fits_int64 event_id); simpl; intros E; inversion E; subst;
      left; (split; [reflexivity | discriminate]). }
  unfold ret at 1. cbv beta iota.
  unfold bind at 1. unfold update at 1. cbv beta iota zeta. cbn [committed pending].
  fold db1.
  destruct (form_start_time form >=? form_end_time form) eqn:Hge.
  { simpl. intros E. inversion E; subst. left. split; [reflexivity | discriminate]. }
  unfold bind at 1. unfold query at 1. cbv beta iota. cbn [pending].
  unfold bind at 1.
  match goal with
  | |- context [for_each ?l ?acc ?b ?s] =>
      generalize (edit_event_loop_spec event_id (form_start_time form)
                    (form_end_time form) l acc s);
      destruct (for_each l acc b s) as [o1 s']
  end.
  cbn [fst snd pending]. intros [Hs Hnames]. subst s'.
  destruct o1 as [names|e].
  2:{ simpl. intros E. inversion E; subst. left. split; [reflexivity | discriminate]. }
  destruct (truthy names) eqn:Ht.
  { simpl. intros E. inversion E; subst. left. split; [reflexivity | discriminate]. }
  simpl. intros E. inversion E; subst. right.
  destruct (Hnames names eq_refl Ht) as [_ Hall].
  repeat split; try assumption; try congruence.
  rewrite Z.geb_leb in Hge. apply Z.leb_gt in Hge. lia.
Qed.

(** Rewriting titles and descriptions is invisible to the conflict query. *)
Lemma filter_map_comm A B (g : A -> B) (f : B -> bool) l :
  filter f (map g l) = map g (filter (fun x => f (g x)) l).
Proof.
  induction l as [|x l IH]; simpl; [reflexivity|].
  destruct (f (g x)); simpl; now rewrite IH.
Qed.

Lemma map_filter_flat_map A B C (g : A -> list B) (f : B -> bool) (h : B -> C) l :
  map h (filter f (flat_map g l)) = flat_map (fun a => map h (filter f (g a))) l.
Proof.
  induction l as [|a l IH]; [reflexivity|].
  cbn [flat_map]. now rewrite filter_app, map_app, IH.
Qed.

Lemma check_conflicts_rows db eid rid st et :
  check_conflicts db eid rid st et
  = flat_map (conflict_rows (events db) eid rid st et) (allocations db).
Proof. unfold check_conflicts, join_event. apply map_filter_flat_map. Qed.

Lemma check_conflicts_update_title db id title description eid rid st et :
  check_conflicts (update_event id (set_title_description title description) db)
    eid rid st et
  = check_conflicts db eid rid st et.
Proof.
  rewrite !check_conflicts_rows. unfold update_event. cbn [events allocations].
  apply flat_map_ext. intros a. unfold conflict_rows.
  induction (events db) as [|e es IHe]; [reflexivity|].
  cbn [map filter].
  assert (Hid : Event.event_id
                  (if Event.event_id e =? id
                   then set_title_description title description e else e)
                = Event.event_id e) by (destruct (Event.event_id e =? id); reflexivity).
  rewrite Hid.
  destruct (Event.event_id e =? EventResourceAllocation.event_id a); [|exact IHe].
  cbn [map filter].
  assert (Hf : conflict_filter eid rid st et
                 (a, if Event.event_id e =? id
                     then set_title_description title description e else e)
               = conflict_filter eid rid st et (a, e))
    by (destruct (Event.event_id e =? id); reflexivity).
  rewrite Hf.
  destruct (conflict_filter eid rid st et (a, e)); cbn [map]; now rewrite IHe.
Qed.

Lemma edit_event_stores_allocations db event_id form :
  allocations (snd (run_request (edit_event event_id form) db)) = allocations db.
Proof.
  destruct (edit_event_run db event_id form) as [[-> _]|(_ & -> & _)]; reflexivity.
Qed.

(** C5. A POST to [edit_event] that is turned down, because the new start is
    not before the new end or because an allocation of the event would
    conflict, is answered without the success message, and every request not
    answered with the success message stores nothing: the event row (title,
    description, times) and the allocations are what they were. *)
Theorem edit_event_rejected_no_write db event_id form o db' :
  run_request (edit_event event_id form) db = (o, db') ->
  (o <> Return (Redirect url_events Event_updated_successfully) -> db' = db)
  /\ (form_start_time form >= form_end_time form
      \/ (exists a, In a (event_allocations event_id db)
                    /\ check_conflicts db event_id
                         (EventResourceAllocation.resource_id a)
                         (form_start_time form) (form_end_time form) <> []) ->
      o <> Return (Redirect url_events Event_updated_successfully)
      /\ db' = db).
Proof.
  intros E.
  pose proof (edit_event_run db event_id form) as H. cbv zeta in H.
  rewrite E in H. cbn [fst snd] in H.
  assert (Hrej : o <> Return (Redirect url_events Event_updated_successfully) -> db' = db).
  { intros Ho. destruct H as [[-> _]|(-> & _)]; [reflexivity | now elim Ho]. }
  split; [exact Hrej|].
  intros Hcause.
  assert (Ho : o <> Return (Redirect url_events Event_updated_successfully)).
  { destruct H as [[_ Ho]|(_ & _ & _ & Hlt & Hall)]; [exact Ho|].
    exfalso. destruct Hcause as [Hge|(a & Ha & Hc)]; [lia|].
    apply Hc. rewrite <- (check_conflicts_update_title db event_id
                            (form_title form) (form_description form)).
    apply Hall. exact Ha. }
  split; [exact Ho | exact (Hrej Ho)].
Qed.

Lemma edit_event_rejected_no_write_witness :
  example_db
  = snd (run_request (edit_event 1 (mkEventForm "A2" 36000 39601 "moved")) example_db).
Proof.
  destruct (edit_event_rejected_no_write example_db 1
              (mkEventForm "A2" 36000 39601 "moved")
              (Return (Redirect (url_edit_event 1)
                         (Time_conflict_detected_for_resources ["Room"%string])))
              example_db eq_refl) as [H _].
  symmetry. apply H. discriminate.
Defined.

(** C4, on the code.  [single_db] holds event 1 (10:00-11:00) with one
    allocation whose cached times are 10:00 and 11:00.  Moving the event to
    12:00-13:00 is accepted and stored, and the allocation still carries
    10:00 and 11:00: [edit_event] never writes the cached columns. *)
Theorem edit_event_leaves_cached_times_stale :
  let r := run_request (edit_event 1 (mkEventForm "A" 43200 46800 "")) single_db in
  fst r = Return (Redirect url_events Event_updated_successfully)
  /\ get_event (snd r) 1 = Some (Event.mk 1 "A" 43200 46800 "")
  /\ allocations (snd r)
     = [EventResourceAllocation.mk 1 1 1 (Some 36000) (Some 39600)].
Proof. repeat split. Qed.

(** C6, on the code.  Allocating a missing event raises [AttributeError]
    instead of answering NotFound; allocating a missing resource is not
    checked at all: without foreign-key enforcement the allocation is stored
    and reported as a success, with it the INSERT raises [IntegrityError]. *)
Theorem add_allocation_missing_rows :
  (forall fk, run_request (add_allocation fk 1 1) empty_db
              = (Raise AttributeError, empty_db))
  /\ get_resource event_only_db 7 = None
  /\ run_request (add_allocation false 1 7) event_only_db
     = (Return (Redirect url_allocations Resource_allocated_successfully),
        mkDB (events event_only_db) []
          [EventResourceAllocation.mk 1 1 7 (Some 36000) (Some 39600)])
  /\ run_request (add_allocation true 1 7) event_only_db
     = (Raise IntegrityError, event_only_db).
Proof. repeat split. Qed.

(** *** The cached times of allocations *)

Lemma conflict_rows_without_cache evs eid rid st et a :
  conflict_rows evs eid rid st et (without_cache a)
  = map without_cache (conflict_rows evs eid rid st et a).
Proof.
  unfold conflict_rows. cbn [without_cache EventResourceAllocation.event_id].
  induction evs as [|e es IH]; [reflexivity|].
  cbn [filter].
  destruct (Event.event_id e =? EventResourceAllocation.event_id a); [|exact IH].
  cbn [map filter].
  change (conflict_filter eid rid st et (without_cache a, e))
    with (conflict_filter eid rid st et (a, e)).
  destruct (conflict_filter eid rid st et (a, e)); [|exact IH].
  cbn [map fst]. now rewrite IH.
Qed.

Lemma check_conflicts_without_cached_times db eid rid st et :
  check_conflicts (without_cached_times db) eid rid st et
  = map without_cache (check_conflicts db eid rid st et).
Proof.
  rewrite !check_conflicts_rows. unfold without_cached_times.
  cbn [events allocations].
  induction (allocations db) as [|a l IH]; [reflexivity|].
  cbn [map flat_map]. now rewrite map_app, IH, conflict_rows_without_cache.
Qed.

(** C9. Two database states that differ only in the cached [start_time] and
    [end_time] of their allocations give [check_conflicts] the same result
    for every call: the same allocations (key, event and resource), in the
    same order, each returned with whatever cached times its state holds. *)
Theorem check_conflicts_ignores_cached_times db1 db2 event_id resource_id start_time end_time :
  without_cached_times db1 = without_cached_times db2 ->
  map without_cache (check_conflicts db1 event_id resource_id start_time end_time)
  = map without_cache (check_conflicts db2 event_id resource_id start_time end_time).
Proof.
  intros H. rewrite <- !check_conflicts_without_cached_times. now rewrite H.
Qed.

Lemma check_conflicts_ignores_cached_times_witness :
  single_db <> single_db_recached
  /\ map without_cache (check_conflicts single_db 2 1 36000 39600)
     = map without_cache (check_conflicts single_db_recached 2 1 36000 39600).
Proof.
  split; [discriminate|].
  apply (check_conflicts_ignores_cached_times single_db single_db_recached).
  reflexivity.
Defined.

(** *** What each writing route stores *)

(** One step of symbolic execution of a request. *)
Ltac run_step :=
  cbv beta iota; cbn [pending committed attr_of ret raise fst snd].

Lemma next_id_gt ids x : In x ids -> x < next_id ids.
Proof.
  unfold next_id. induction ids as [|y l IH]; [intros []|].
  cbn [fold_right]. intros [->|H]; [lia|]. specialize (IH H). lia.
Qed.

Lemma add_event_run form db :
  snd (run_request (add_event form) db)
  = if form_start_time form >=? form_end_time form then db
    else insert_event (form_title form) (form_start_time form)
           (form_end_time form) (form_description form) db.
Proof.
  unfold run_request, add_event. cbv zeta.
  destruct (form_start_time form >=? form_end_time form); reflexivity.
Qed.

Lemma delete_event_run id db :
  snd (run_request (delete_event id) db)
  = match get_event db id with
    | Some _ => delete_event_row id db
    | None => db
    end.
Proof.
  unfold run_request, delete_event, get_or_404, bind, query. cbn [pending].
  destruct (get_event db id); [reflexivity|].
  destruct (fits_int64 id); reflexivity.
Qed.

Lemma add_resource_run form db :
  snd (run_request (add_resource form) db)
  = insert_resource (form_resource_name form) (form_resource_type form) db.
Proof. reflexivity. Qed.

Lemma edit_resource_run id form db :
  snd (run_request (edit_resource id form) db)
  = match get_resource db id with
    | Some _ =>
        update_resource id
          (fun r => Resource.mk (Resource.resource_id r)
                      (form_resource_name form) (form_resource_type form)) db
    | None => db
    end.
Proof.
  unfold run_request, edit_resource, get_or_404, bind, query. cbn [pending].
  destruct (get_resource db id); [reflexivity|].
  destruct (fits_int64 id); reflexivity.
Qed.

Lemma delete_resource_run id db :
  snd (run_request (delete_resource id) db)
  = match get_resource db id with
    | Some _ => delete_resource_row id db
    | None => db
    end.
Proof.
  unfold run_request, delete_resource, get_or_404, bind, query. cbn [pending].
  destruct (get_resource db id); [reflexivity|].
  destruct (fits_int64 id); reflexivity.
Qed.

Lemma delete_allocation_run id db :
  snd (run_request (delete_allocation id) db)
  = match get_allocation db id with
    | Some _ => delete_allocation_row id db
    | None => db
    end.
Proof.
  unfold run_request, delete_allocation, get_or_404, bind, query. cbn [pending].
  destruct (get_allocation db id); [reflexivity|].
  destruct (fits_int64 id); reflexivity.
Qed.

(** The POST branch of [add_allocation], case by case. *)
Lemma add_allocation_eq fk event_id resource_id db :
  run_request (add_allocation fk event_id resource_id) db
  = if fits_int64 event_id && fits_int64 resource_id then
      match first_allocation event_id resource_id db with
      | Some _ =>
          (Return (Redirect url_add_allocation
                     This_resource_is_already_allocated_to_this_event), db)
      | None =>
          match get_event db event_id with
          | None => (Raise AttributeError, db)
          | Some ev =>
              if truthy (check_conflicts db event_id resource_id
                           (Event.start_time ev) (Event.end_time ev))
              then (Return (Redirect url_add_allocation Resource_conflict_detected), db)
              else
                if fk && match get_resource db resource_id with
                         | Some _ => false
                         | None => true
                         end
                then (Raise IntegrityError, db)
                else (Return (Redirect url_allocations Resource_allocated_successfully),
                      insert_allocation_row event_id resource_id
                        (Some (Event.start_time ev)) (Some (Event.end_time ev)) db)
          end
      end
    else (Raise OverflowError, db).
Proof.
  unfold run_request, add_allocation.
  destruct (fits_int64 event_id && fits_int64 resource_id); [|reflexivity].
  unfold add_allocation_row, bind, query.
  run_step.
  destruct (first_allocation event_id resource_id db); [reflexivity|].
  run_step.
  destruct (get_event db event_id) as [ev|] eqn:Hev; [|reflexivity].
  run_step.
  destruct (truthy _); [reflexivity|].
  run_step. rewrite Hev.
  destruct (get_resource db resource_id), fk; reflexivity.
Qed.

(** [add_allocation] stores nothing, or the event exists, no conflict was
    found for its interval, and the new row is appended. *)
Lemma add_allocation_run fk event_id resource_id db :
  snd (run_request (add_allocation fk event_id resource_id) db) = db
  \/ exists ev,
      get_event db event_id = Some ev
      /\ check_conflicts db event_id resource_id
           (Event.start_time ev) (Event.end_time ev) = []
      /\ snd (run_request (add_allocation fk event_id resource_id) db)
         = insert_allocation_row event_id resource_id
             (Some (Event.start_time ev)) (Some (Event.end_time ev)) db.
Proof.
  rewrite add_allocation_eq.
  destruct (fits_int64 event_id && fits_int64 resource_id); [|left; reflexivity].
  destruct (first_allocation event_id resource_id db); [left; reflexivity|].
  destruct (get_event db event_id) as [ev|] eqn:Hev; [|left; reflexivity].
  destruct (check_conflicts db event_id resource_id
              (Event.start_time ev) (Event.end_time ev)) eqn:Hc;
    [|left; reflexivity].
  cbn [truthy]. cbv iota.
  destruct (fk && _); [left; reflexivity|].
  right. exists ev. repeat split. exact Hc.
Qed.

(** *** Unique keys *)

Lemma NoDup_snoc A (l : list A) x : NoDup l -> ~ In x l -> NoDup (l ++ [x]).
Proof.
  induction l as [|y l IH]; intros Hnd Hx; simpl.
  - constructor; [intros [] | constructor].
  - inversion Hnd as [|? ? Hy Hl]; subst. constructor.
    + rewrite in_app_iff. intros [H|[H|[]]]; [now apply Hy|].
      subst. apply Hx. now left.
    + apply IH; [assumption|]. intros H. apply Hx. now right.
Qed.

Lemma NoDup_map_filter A B (f : A -> B) (p : A -> bool) l :
  NoDup (map f l) -> NoDup (map f (filter p l)).
Proof.
  induction l as [|x l IH]; simpl; intros Hnd; [constructor|].
  inversion Hnd as [|? ? Hx Hl]; subst.
  destruct (p x); simpl; [|now apply IH].
  constructor; [|now apply IH].
  intros H. apply Hx. apply in_map_iff in H. destruct H as (y & Hy & Hin).
  apply filter_In in Hin. rewrite <- Hy. apply in_map. tauto.
Qed.

Lemma unique_key A B (f : A -> B) l x y :
  NoDup (map f l) -> In x l -> In y l -> f x = f y -> x = y.
Proof.
  induction l as [|z l IH]; simpl; intros Hnd Hx Hy Hf; [contradiction|].
  inversion Hnd as [|? ? Hz Hl]; subst.
  destruct Hx as [->|Hx], Hy as [->|Hy]; try reflexivity.
  - elim Hz. rewrite Hf. now apply in_map.
  - elim Hz. rewrite <- Hf. now apply in_map.
  - now apply IH.
Qed.

Lemma get_event_some db id e :
  get_event db id = Some e -> In e (events db) /\ Event.event_id e = id.
Proof.
  unfold get_event. intros H. apply find_some in H.
  now rewrite Z.eqb_eq in H.
Qed.

(** *** The table operations keep [store_ok] *)

Lemma store_ok_empty : store_ok empty_db.
Proof.
  constructor; simpl; try constructor; intros; contradiction.
Qed.

(** Dropping allocations and touching resources is always safe. *)
Lemma store_ok_fewer_allocations db db' p :
  events db' = events db ->
  allocations db' = filter p (allocations db) ->
  store_ok db -> store_ok db'.
Proof.
  intros He Ha [H1 H2 H3 H4 H5]. constructor; rewrite ?He, ?Ha.
  - exact H1.
  - now apply NoDup_map_filter.
  - exact H3.
  - intros a Hin. apply filter_In in Hin. now apply H4.
  - intros a1 a2 e1 e2 Ha1 Ha2. apply filter_In in Ha1, Ha2.
    apply H5; tauto.
Qed.

Lemma filter_all A (l : list A) : filter (fun _ => true) l = l.
Proof. induction l; simpl; congruence. Qed.

Lemma store_ok_same_tables db db' :
  events db' = events db -> allocations db' = allocations db ->
  store_ok db -> store_ok db'.
Proof.
  intros He Ha. apply store_ok_fewer_allocations with (p := fun _ => true);
    [exact He | now rewrite filter_all].
Qed.

Lemma store_ok_insert_event title st et description db :
  st < et -> store_ok db -> store_ok (insert_event title st et description db).
Proof.
  intros Hlt [H1 H2 H3 H4 H5].
  set (n := next_id (map Event.event_id (events db))).
  assert (Hfresh : forall a, In a (allocations db) ->
                             EventResourceAllocation.event_id a <> n).
  { intros a Ha Heq. destruct (H4 a Ha) as (e & He & Hid).
    assert (Event.event_id e < n) by (apply next_id_gt; now apply in_map).
    lia. }
  constructor; unfold insert_event; cbn [events allocations]; fold n.
  - rewrite map_app. apply NoDup_snoc; [exact H1|].
    intros Hin. apply next_id_gt in Hin.
    cbn [Event.event_id] in Hin. fold n in Hin. lia.
  - exact H2.
  - intros e He. apply in_app_iff in He. destruct He as [He|[<-|[]]].
    + now apply H3.
    + exact Hlt.
  - intros a Ha. destruct (H4 a Ha) as (e & He & Hid).
    exists e. split; [apply in_app_iff; now left | exact Hid].
  - intros a1 a2 e1 e2 Ha1 Ha2 He1 He2 Hid1 Hid2.
    apply in_app_iff in He1, He2.
    destruct He1 as [He1|[<-|[]]]; [|now elim (Hfresh a1 Ha1)].
    destruct He2 as [He2|[<-|[]]]; [|now elim (Hfresh a2 Ha2)].
    now apply H5.
Qed.

Lemma store_ok_delete_event id db :
  store_ok db -> store_ok (delete_event_row id db).
Proof.
  intros [H1 H2 H3 H4 H5].
  constructor; unfold delete_event_row; cbn [events allocations].
  - now apply NoDup_map_filter.
  - now apply NoDup_map_filter.
  - intros e He. apply filter_In in He. now apply H3.
  - intros a Ha. apply filter_In in Ha. destruct Ha as [Ha Hne].
    destruct (H4 a Ha) as (e & He & Hid). exists e. split; [|exact Hid].
    apply filter_In. split; [exact He|]. now rewrite Hid.
  - intros a1 a2 e1 e2 Ha1 Ha2 He1 He2.
    apply filter_In in Ha1, Ha2, He1, He2. apply H5; tauto.
Qed.

Lemma no_overlap_from_check db eid rid st et a e :
  check_conflicts db eid rid st et = [] ->
  In a (allocations db) ->
  EventResourceAllocation.resource_id a = rid ->
  EventResourceAllocation.event_id a <> eid ->
  In e (events db) ->
  Event.event_id e = EventResourceAllocation.event_id a ->
  overlaps (Event.start_time e) (Event.end_time e) st et = false.
Proof.
  intros Hc Ha Hr Hne He Hid.
  destruct (overlaps _ _ st et) eqn:Hov; [|reflexivity].
  assert (Hin : In a (check_conflicts db eid rid st et)).
  { apply in_check_conflicts. repeat split; try assumption. exists e. auto. }
  rewrite Hc in Hin. contradiction.
Qed.

Lemma store_ok_insert_allocation eid rid ev db :
  store_ok db ->
  get_event db eid = Some ev ->
  check_conflicts db eid rid (Event.start_time ev) (Event.end_time ev) = [] ->
  store_ok (insert_allocation_row eid rid
              (Some (Event.start_time ev)) (Some (Event.end_time ev)) db).
Proof.
  intros [H1 H2 H3 H4 H5] Hev Hc.
  apply get_event_some in Hev. destruct Hev as [Hev Hid].
  constructor; unfold insert_allocation_row; cbn [events allocations].
  - exact H1.
  - rewrite map_app. apply NoDup_snoc; [exact H2|].
    intros Hin. apply next_id_gt in Hin.
    cbn [EventResourceAllocation.allocation_id] in Hin.
    exact (Z.lt_irrefl _ Hin).
  - exact H3.
  - intros a Ha. apply in_app_iff in Ha. destruct Ha as [Ha|[<-|[]]].
    + now apply H4.
    + exists ev. now split.
  - intros a1 a2 e1 e2 Ha1 Ha2 He1 He2 Hid1 Hid2 Hr Hne.
    apply in_app_iff in Ha1, Ha2.
    destruct Ha1 as [Ha1|[<-|[]]], Ha2 as [Ha2|[<-|[]]];
      cbn [EventResourceAllocation.event_id EventResourceAllocation.resource_id] in *.
    + now apply (H5 a1 a2).
    + (* a2 is the new row: e2 is its event, e1 the stored one *)
      assert (e2 = ev) by (apply (unique_key _ _ Event.event_id (events db)); congruence).
      subst e2. unfold events_overlap.
      apply (no_overlap_from_check db eid rid _ _ a1); auto.
    + assert (e1 = ev) by (apply (unique_key _ _ Event.event_id (events db)); congruence).
      subst e1. unfold events_overlap.
      rewrite overlaps_sym by (apply H3; assumption).
      apply (no_overlap_from_check db eid rid _ _ a2); auto.
    + now elim Hne.
Qed.

Lemma edited_event_ids id title description st et db :
  map Event.event_id
    (events (update_event id (set_times st et)
               (update_event id (set_title_description title description) db)))
  = map Event.event_id (events db).
Proof.
  unfold update_event. cbn [events]. rewrite !map_map.
  apply map_ext. intros e.
  destruct (Event.event_id e =? id) eqn:E; cbn; rewrite ?E; reflexivity.
Qed.

Lemma edited_event_in id title description st et db e' :
  In e' (events (update_event id (set_times st et)
                   (update_event id (set_title_description title description) db))) ->
  exists e,
    In e (events db)
    /\ Event.event_id e' = Event.event_id e
    /\ ((Event.event_id e <> id /\ e' = e)
        \/ (Event.event_id e = id
            /\ Event.start_time e' = st /\ Event.end_time e' = et)).
Proof.
  unfold update_event. cbn [events]. rewrite map_map, in_map_iff.
  intros (e & He' & He). exists e. split; [exact He|].
  destruct (Event.event_id e =? id) eqn:E.
  - cbn in He'. rewrite E in He'. subst e'. cbn.
    apply Z.eqb_eq in E. auto.
  - rewrite E in He'. subst e'. apply Z.eqb_neq in E. auto.
Qed.

Lemma store_ok_edit_times id title description st et db :
  store_ok db ->
  st < et ->
  (forall a, In a (event_allocations id db) ->
             check_conflicts db id (EventResourceAllocation.resource_id a) st et = []) ->
  store_ok (update_event id (set_times st et)
              (update_event id (set_title_description title description) db)).
Proof.
  intros [H1 H2 H3 H4 H5] Hlt Hall. constructor.
  - now rewrite edited_event_ids.
  - exact H2.
  - intros e' He'. apply edited_event_in in He'.
    destruct He' as (e & He & _ & [[_ ->]|(_ & Hs & Ht)]).
    + now apply H3.
    + unfold valid_event. lia.
  - intros a Ha. destruct (H4 a Ha) as (e & He & Hid).
    assert (Hin : In (Event.event_id e) (map Event.event_id (events db)))
      by now apply in_map.
    rewrite <- (edited_event_ids id title description st et db) in Hin.
    apply in_map_iff in Hin. destruct Hin as (e' & Hid' & He').
    exists e'. split; [exact He' | congruence].
  - intros a1 a2 e1' e2' Ha1 Ha2 He1 He2 Hid1 Hid2 Hr Hne.
    change (In a1 (allocations db)) in Ha1. change (In a2 (allocations db)) in Ha2.
    apply edited_event_in in He1, He2.
    destruct He1 as (e1 & He1 & Hk1 & C1), He2 as (e2 & He2 & Hk2 & C2).
    unfold events_overlap.
    destruct C1 as [[N1 ->]|(E1 & -> & ->)], C2 as [[N2 ->]|(E2 & -> & ->)].
    + now apply (H5 a1 a2).
    + (* e2 is the edited event *)
      apply (no_overlap_from_check db id (EventResourceAllocation.resource_id a2) _ _ a1);
        try assumption; try congruence.
      apply Hall. apply filter_In. split; [exact Ha2|]. apply Z.eqb_eq. congruence.
    + (* e1 is the edited event *)
      rewrite overlaps_sym by (try apply H3; assumption).
      apply (no_overlap_from_check db id (EventResourceAllocation.resource_id a1) _ _ a2);
        try assumption; try congruence.
      apply Hall. apply filter_In. split; [exact Ha1|]. apply Z.eqb_eq. congruence.
    + elim Hne. congruence.
Qed.

(** *** Every request keeps [store_ok] *)

Lemma serve_store_ok fk r db : store_ok db -> store_ok (snd (serve fk r db)).
Proof.
  intros Hok. unfold serve. destruct r as [form|id form|id|form|id form|id|eid rid|id];
    cbn [handle].
  - rewrite add_event_run.
    destruct (form_start_time form >=? form_end_time form) eqn:Hge; [exact Hok|].
    apply store_ok_insert_event; [|exact Hok].
    rewrite Z.geb_leb in Hge. apply Z.leb_gt in Hge. lia.
  - pose proof (edit_event_run db id form) as H. cbv zeta in H.
    destruct H as [[-> _]|(_ & -> & _ & Hlt & Hall)]; [exact Hok|].
    apply store_ok_edit_times; [exact Hok | exact Hlt |].
    intros a Ha. rewrite <- (check_conflicts_update_title db id
                              (form_title form) (form_description form)).
    now apply Hall.
  - rewrite delete_event_run. destruct (get_event db id); [|exact Hok].
    now apply store_ok_delete_event.
  - rewrite add_resource_run. now apply (store_ok_same_tables db).
  - rewrite edit_resource_run. destruct (get_resource db id); [|exact Hok].
    now apply (store_ok_same_tables db).
  - rewrite delete_resource_run. destruct (get_resource db id); [|exact Hok].
    now apply (store_ok_fewer_allocations db _
                 (fun a => negb (EventResourceAllocation.resource_id a =? id))).
  - destruct (add_allocation_run fk eid rid db) as [->|(ev & Hev & Hc & ->)];
      [exact Hok|].
    now apply store_ok_insert_allocation.
  - rewrite delete_allocation_run. destruct (get_allocation db id); [|exact Hok].
    now apply (store_ok_fewer_allocations db _
                 (fun a => negb (EventResourceAllocation.allocation_id a =? id))).
Qed.

Lemma reachable_store_ok fk db : reachable fk db -> store_ok db.
Proof.
  induction 1 as [|db r _ IH]; [apply store_ok_empty | now apply serve_store_ok].
Qed.

Lemma reachable_serve_all fk rs db :
  reachable fk db -> reachable fk (serve_all fk rs db).
Proof.
  revert db. induction rs as [|r rs IH]; intros db H; [exact H|].
  apply IH. now constructor.
Qed.

(** C3. In every state reached from the empty store by serving requests one
    after the other (the five lifecycle operations, and also the creation of
    events and the creation and edition of resources), two stored allocations
    of one resource that belong to different events have owning events on
    which the overlap predicate is false. *)
Theorem stored_allocations_never_overlap fk db :
  reachable fk db ->
  forall a1 a2 e1 e2,
    In a1 (allocations db) -> In a2 (allocations db) ->
    a1 <> a2 ->
    EventResourceAllocation.resource_id a1 = EventResourceAllocation.resource_id a2 ->
    EventResourceAllocation.event_id a1 <> EventResourceAllocation.event_id a2 ->
    get_event db (EventResourceAllocation.event_id a1) = Some e1 ->
    get_event db (EventResourceAllocation.event_id a2) = Some e2 ->
    overlaps (Event.start_time e1) (Event.end_time e1)
             (Event.start_time e2) (Event.end_time e2) = false.
Proof.
  intros Hr a1 a2 e1 e2 Ha1 Ha2 _ Hrid Hne He1 He2.
  apply reachable_store_ok in Hr.
  apply get_event_some in He1, He2.
  now apply (ok_no_conflict db Hr a1 a2 e1 e2).
Qed.

Lemma stored_allocations_never_overlap_witness :
  reachable false example_db
  /\ overlaps 36000 39600 39600 43200 = false.
Proof.
  assert (Hr : reachable false example_db)
    by (apply reachable_serve_all; constructor).
  split; [exact Hr|].
  apply (stored_allocations_never_overlap false example_db Hr
           (EventResourceAllocation.mk 1 1 1 (Some 36000) (Some 39600))
           (EventResourceAllocation.mk 2 2 1 (Some 39600) (Some 43200))
           (Event.mk 1 "A" 36000 39600 "")
           (Event.mk 2 "B" 39600 43200 ""));
    try reflexivity; try discriminate.
  - now left.
  - right. now left.
Defined.

(** *** The conflicts page *)

Lemma conflicts_emit_loop ev res found acc s :
  for_each found acc (conflicts_emit ev res) s
  = (Return (acc ++ map (fun c =>
                           mkConflictRow ev
                             (get_event (pending s) (EventResourceAllocation.event_id c))
                             res) found), s).
Proof.
  revert acc. induction found as [|c l IH]; intros acc.
  - simpl. now rewrite app_nil_r.
  - rewrite for_each_cons. unfold conflicts_emit at 1, bind, query, ret.
    rewrite IH. cbn [map]. now rewrite <- app_assoc.
Qed.

Lemma conflicts_loop allocs acc s :
  (forall a, In a allocs ->
             get_event (pending s) (EventResourceAllocation.event_id a) <> None) ->
  for_each allocs acc conflicts_step s
  = (Return (acc ++ map snd (flat_map (emissions_of (pending s)) allocs)), s).
Proof.
  revert acc. induction allocs as [|a l IH]; intros acc Hown.
  - simpl. now rewrite app_nil_r.
  - rewrite for_each_cons. unfold conflicts_step at 1, bind, query.
    unfold emissions_of at 1. cbn [flat_map].
    destruct (get_event (pending s) (EventResourceAllocation.event_id a)) as [ev|] eqn:Hev.
    2:{ exfalso. apply (Hown a); [now left | exact Hev]. }
    cbn [attr_of ret]. rewrite conflicts_emit_loop.
    rewrite IH by (intros x Hx; apply Hown; now right).
    rewrite map_app, map_map, app_assoc. reflexivity.
Qed.

Lemma conflicts_run db :
  (forall a, In a (allocations db) ->
             get_event db (EventResourceAllocation.event_id a) <> None) ->
  run_request conflicts db = (Return (map snd (conflict_emissions db)), db).
Proof.
  intros Hown. unfold run_request, conflicts, bind, query. cbn [pending].
  rewrite conflicts_loop by exact Hown. reflexivity.
Qed.

(** With unique event keys the join pairs an allocation with at most one
    event, and [check_conflicts] is a filter of the allocations table. *)
Lemma filter_key_find (l : list Event.t) k :
  NoDup (map Event.event_id l) ->
  filter (fun e => Event.event_id e =? k) l
  = match find (fun e => Event.event_id e =? k) l with
    | Some e => [e]
    | None => []
    end.
Proof.
  induction l as [|e l IH]; intros Hnd; [reflexivity|].
  inversion Hnd as [|? ? He Hl]; subst. cbn [filter find].
  destruct (Event.event_id e =? k) eqn:E; [|now apply IH].
  f_equal. apply Z.eqb_eq in E.
  destruct (filter (fun e0 => Event.event_id e0 =? k) l) as [|e' l'] eqn:F;
    [reflexivity|].
  exfalso. apply He.
  assert (Hin : In e' (filter (fun e0 => Event.event_id e0 =? k) l))
    by (rewrite F; now left).
  apply filter_In in Hin. destruct Hin as [Hin Hk]. apply Z.eqb_eq in Hk.
  rewrite E, <- Hk. now apply in_map.
Qed.

Lemma check_conflicts_filter db eid rid st et :
  NoDup (map Event.event_id (events db)) ->
  check_conflicts db eid rid st et
  = filter (conflicts_with db eid rid st et) (allocations db).
Proof.
  intros Hnd. rewrite check_conflicts_rows.
  induction (allocations db) as [|a l IH]; [reflexivity|].
  cbn [flat_map filter]. rewrite IH. clear IH.
  unfold conflict_rows at 1, conflicts_with at 2, get_event.
  rewrite filter_key_find by exact Hnd.
  destruct (find _ (events db)) as [e|]; [|reflexivity].
  cbn [map filter]. destruct (conflict_filter eid rid st et (a, e)); reflexivity.
Qed.

Lemma filter_flat_map A B (g : A -> list B) (p : B -> bool) l :
  filter p (flat_map g l) = flat_map (fun x => filter p (g x)) l.
Proof.
  induction l as [|x l IH]; [reflexivity|].
  cbn [flat_map]. now rewrite filter_app, IH.
Qed.

Lemma flat_map_all_nil A B (h : A -> list B) l :
  (forall x, In x l -> h x = []) -> flat_map h l = [].
Proof.
  induction l as [|x l IH]; intros H; [reflexivity|].
  cbn [flat_map]. rewrite (H x) by now left.
  apply IH. intros y Hy. apply H. now right.
Qed.

(** In a table with unique keys, a [flat_map] that is empty off one key is
    what it yields on the row with that key. *)
Lemma flat_map_unique_key A B (key : A -> Z) (h : A -> list B) l a :
  NoDup (map key l) -> In a l ->
  (forall x, In x l -> key x <> key a -> h x = []) ->
  flat_map h l = h a.
Proof.
  induction l as [|y l IH]; intros Hnd Ha Hoff; [contradiction|].
  inversion Hnd as [|? ? Hy Hl]; subst. cbn [flat_map].
  destruct Ha as [->|Ha].
  - rewrite flat_map_all_nil; [now rewrite app_nil_r|].
    intros x Hx. apply Hoff; [now right|].
    intros E. apply Hy. rewrite <- E. now apply in_map.
  - rewrite (Hoff y); [|now left|].
    + apply IH; try assumption. intros x Hx. apply Hoff. now right.
    + intros E. apply Hy. rewrite E. now apply in_map.
Qed.

Lemma filter_key_in_filter A (key : A -> Z) (p : A -> bool) l b :
  NoDup (map key l) -> In b l ->
  filter (fun c => key c =? key b) (filter p l) = if p b then [b] else [].
Proof.
  intros Hnd Hb.
  transitivity (flat_map (fun c => if p c && (key c =? key b) then [c] else []) l).
  - clear. induction l as [|x l IH]; [reflexivity|].
    cbn [filter flat_map]. destruct (p x); cbn [filter andb].
    + destruct (key x =? key b); cbn [app]; now rewrite IH.
    + exact IH.
  - rewrite (flat_map_unique_key A A key _ l b Hnd Hb).
    + now rewrite Z.eqb_refl, andb_true_r.
    + intros x _ Hne. apply Z.eqb_neq in Hne. now rewrite Hne, andb_false_r.
Qed.

Lemma length_filter_orb A (p q : A -> bool) l :
  (forall x, In x l -> p x && q x = false) ->
  List.length (filter (fun x => p x || q x) l)
  = (List.length (filter p l) + List.length (filter q l))%nat.
Proof.
  induction l as [|x l IH]; intros H; [reflexivity|].
  assert (Hx := H x (or_introl eq_refl)).
  specialize (IH (fun y Hy => H y (or_intror Hy))).
  cbn [filter]. destruct (p x), (q x); try discriminate; cbn [orb List.length];
    rewrite IH; lia.
Qed.

(** The emissions made while the outer loop is at [a] for the conflicting
    allocation [b]: exactly one, when the event of [b] overlaps the event of
    [a]. *)
Lemma emitted_once db a b ea eb :
  NoDup (map Event.event_id (events db)) ->
  NoDup (map EventResourceAllocation.allocation_id (allocations db)) ->
  In a (allocations db) -> In b (allocations db) ->
  get_event db (EventResourceAllocation.event_id a) = Some ea ->
  get_event db (EventResourceAllocation.event_id b) = Some eb ->
  EventResourceAllocation.resource_id b = EventResourceAllocation.resource_id a ->
  EventResourceAllocation.event_id b <> EventResourceAllocation.event_id a ->
  events_overlap eb ea = true ->
  filter (emitted_for a b) (conflict_emissions db)
  = [(a, b, mkConflictRow ea (Some eb)
              (get_resource db (EventResourceAllocation.resource_id a)))].
Proof.
  intros Hev Hal Ha Hb Hea Heb Hrid Hne Hov.
  unfold conflict_emissions. rewrite filter_flat_map.
  rewrite (flat_map_unique_key _ _ EventResourceAllocation.allocation_id _ _ a Hal Ha).
  - unfold emissions_of. rewrite Hea, filter_map_comm.
    rewrite check_conflicts_filter by exact Hev.
    unfold emitted_for. cbn [fst snd]. rewrite Z.eqb_refl. cbn [andb].
    rewrite (filter_key_in_filter _ EventResourceAllocation.allocation_id _ _ b Hal Hb).
    unfold conflicts_with. rewrite Heb. unfold conflict_filter.
    apply Z.eqb_eq in Hrid. apply Z.eqb_neq in Hne. rewrite Hrid, Hne.
    unfold events_overlap in Hov. rewrite Hov. cbn [negb andb map].
    now rewrite Heb.
  - intros x _ Hx. unfold emissions_of.
    destruct (get_event db (EventResourceAllocation.event_id x)); [|reflexivity].
    rewrite filter_map_comm. unfold emitted_for. cbn [fst snd].
    apply Z.eqb_neq in Hx. rewrite Hx. cbn [andb].
    induction (check_conflicts _ _ _ _ _); [reflexivity | exact IHl].
Qed.

Lemma events_overlap_sym e1 e2 :
  valid_event e1 -> valid_event e2 -> events_overlap e1 e2 = events_overlap e2 e1.
Proof. intros H1 H2. unfold events_overlap. now apply overlaps_sym. Qed.

(** A lookup by primary key finds the stored row. *)
Lemma find_key_in A (key : A -> Z) l x :
  NoDup (map key l) -> In x l -> find (fun y => key y =? key x) l = Some x.
Proof.
  induction l as [|y l IH]; intros Hnd Hx; [contradiction|].
  inversion Hnd as [|? ? Hy Hl]; subst. cbn [find].
  destruct Hx as [->|Hx]; [now rewrite Z.eqb_refl|].
  destruct (key y =? key x) eqn:E; [|now apply IH].
  apply Z.eqb_eq in E. exfalso. apply Hy. rewrite E. now apply in_map.
Qed.

Lemma find_key_none A (key : A -> Z) l k :
  (forall x, In x l -> key x <> k) -> find (fun y => key y =? k) l = None.
Proof.
  induction l as [|y l IH]; intros H; [reflexivity|].
  cbn [find]. assert (Hy : key y <> k) by (apply H; now left).
  apply Z.eqb_neq in Hy. rewrite Hy. apply IH. intros x Hx. apply H. now right.
Qed.

Lemma get_event_in db e :
  NoDup (map Event.event_id (events db)) -> In e (events db) ->
  get_event db (Event.event_id e) = Some e.
Proof. intros Hnd He. unfold get_event. now apply find_key_in. Qed.

Lemma get_resource_of_key db k res :
  NoDup (map Resource.resource_id (resources db)) ->
  resource_of_key db k res -> get_resource db k = res.
Proof.
  intros Hnd. unfold get_resource. destruct res as [R|]; cbn [resource_of_key].
  - intros [HR <-]. now apply find_key_in.
  - apply find_key_none.
Qed.

Lemma has_event_lookup db a :
  has_event db a -> get_event db (EventResourceAllocation.event_id a) <> None.
Proof.
  intros (e & He & Hid) F. unfold get_event in F.
  apply (find_none _ _ F) in He. rewrite Hid, Z.eqb_refl in He. discriminate.
Qed.

(** One allocation without its event is enough for the whole listing to be
    lost: the loop raises when it comes to it. *)
Lemma conflicts_loop_dangling allocs acc s :
  (exists a, In a allocs
             /\ get_event (pending s) (EventResourceAllocation.event_id a) = None) ->
  for_each allocs acc conflicts_step s = (Raise AttributeError, s).
Proof.
  revert acc. induction allocs as [|a l IH]; intros acc (x & Hx & Hnone);
    [contradiction|].
  rewrite for_each_cons. unfold conflicts_step at 1, bind, query.
  destruct (get_event (pending s) (EventResourceAllocation.event_id a)) as [ev|] eqn:Hev;
    [|reflexivity].
  cbn [attr_of ret]. rewrite conflicts_emit_loop.
  apply IH. exists x. split; [|exact Hnone].
  destruct Hx as [->|Hx]; [congruence | exact Hx].
Qed.

(** C10, as the code has it.  In a database state whose events all have
    [start < end] (primary keys unique), the overlap predicate does not depend
    on the order of the two events.  The conflicts listing raises
    [AttributeError] and lists nothing as soon as one allocation is without
    its event.  When every allocation has its event, the listing has, for
    every two allocations of one resource whose events differ and overlap,
    exactly two rows: one made at the first allocation, with its event as
    [event1] and the other event as [event2], and one made at the second, the
    other way round, both with the stored resource that has the allocations'
    [resource_id] (with [None] when no stored resource has it). *)
Theorem conflicts_lists_each_pair_twice db :
  unique_keys db ->
  (forall e, In e (events db) -> valid_event e) ->
  (forall e1 e2, In e1 (events db) -> In e2 (events db) ->
                 events_overlap e1 e2 = events_overlap e2 e1)
  /\ ((exists a, In a (allocations db) /\ ~ has_event db a) ->
      run_request conflicts db = (Raise AttributeError, db))
  /\ ((forall a, In a (allocations db) -> has_event db a) ->
      run_request conflicts db = (Return (map snd (conflict_emissions db)), db)
      /\ forall a b ea eb res,
          In a (allocations db) -> In b (allocations db) ->
          In ea (events db) -> In eb (events db) ->
          Event.event_id ea = EventResourceAllocation.event_id a ->
          Event.event_id eb = EventResourceAllocation.event_id b ->
          EventResourceAllocation.resource_id a = EventResourceAllocation.resource_id b ->
          EventResourceAllocation.event_id a <> EventResourceAllocation.event_id b ->
          events_overlap ea eb = true ->
          resource_of_key db (EventResourceAllocation.resource_id a) res ->
          filter (emitted_for a b) (conflict_emissions db)
          = [(a, b, mkConflictRow ea (Some eb) res)]
          /\ filter (emitted_for b a) (conflict_emissions db)
             = [(b, a, mkConflictRow eb (Some ea) res)]
          /\ List.length (filter (fun em => emitted_for a b em || emitted_for b a em)
                            (conflict_emissions db)) = 2%nat).
Proof.
  intros [Hev Hres Hal] Hvalid.
  split; [|split].
  - intros e1 e2 H1 H2. apply events_overlap_sym; now apply Hvalid.
  - intros (a & Ha & Hno).
    unfold run_request, conflicts, bind, query. cbn [pending].
    rewrite conflicts_loop_dangling; [reflexivity|].
    exists a. split; [exact Ha|]. cbn [pending].
    destruct (get_event db (EventResourceAllocation.event_id a)) as [e|] eqn:G;
      [|reflexivity].
    elim Hno. exists e. now apply get_event_some.
  - intros Hown. split.
    { apply conflicts_run. intros a Ha. now apply has_event_lookup, Hown. }
    intros a b ea eb res Ha Hb Hea Heb Hida Hidb Hrid Hne Hov Hr.
    assert (Hva : valid_event ea) by now apply Hvalid.
    assert (Hvb : valid_event eb) by now apply Hvalid.
    assert (Ga : get_event db (EventResourceAllocation.event_id a) = Some ea)
      by (rewrite <- Hida; now apply get_event_in).
    assert (Gb : get_event db (EventResourceAllocation.event_id b) = Some eb)
      by (rewrite <- Hidb; now apply get_event_in).
    assert (Gr : get_resource db (EventResourceAllocation.resource_id a) = res)
      by now apply get_resource_of_key.
    assert (Hab : filter (emitted_for a b) (conflict_emissions db)
                  = [(a, b, mkConflictRow ea (Some eb) res)]).
    { rewrite <- Gr. apply emitted_once; auto.
      now rewrite events_overlap_sym. }
    assert (Hba : filter (emitted_for b a) (conflict_emissions db)
                  = [(b, a, mkConflictRow eb (Some ea) res)]).
    { rewrite <- Gr, Hrid. apply emitted_once; auto. }
    split; [exact Hab|]. split; [exact Hba|].
    rewrite length_filter_orb; [now rewrite Hab, Hba|].
    intros em _. unfold emitted_for.
    destruct (EventResourceAllocation.allocation_id (fst (fst em))
              =? EventResourceAllocation.allocation_id a) eqn:E1; [|reflexivity].
    destruct (EventResourceAllocation.allocation_id (fst (fst em))
              =? EventResourceAllocation.allocation_id b) eqn:E2;
      [|now rewrite andb_false_r].
    exfalso. apply Z.eqb_eq in E1, E2. apply Hne.
    f_equal. apply (unique_key _ _ EventResourceAllocation.allocation_id (allocations db));
      auto. congruence.
Qed.

Lemma unique_keys_double_booked : unique_keys double_booked_db.
Proof.
  constructor; repeat constructor; cbn; intuition discriminate.
Qed.

Lemma conflicts_lists_each_pair_twice_witness :
  run_request conflicts double_booked_db
  = (Return [mkConflictRow (Event.mk 1 "A" 36000 39600 "")
               (Some (Event.mk 3 "C" 37800 38700 ""))
               (Some (Resource.mk 1 "Room" "room"));
             mkConflictRow (Event.mk 3 "C" 37800 38700 "")
               (Some (Event.mk 1 "A" 36000 39600 ""))
               (Some (Resource.mk 1 "Room" "room"))],
     double_booked_db)
  /\ filter (emitted_for (EventResourceAllocation.mk 1 1 1 (Some 36000) (Some 39600))
                        (EventResourceAllocation.mk 2 3 1 (Some 37800) (Some 38700)))
       (conflict_emissions double_booked_db)
     = [(EventResourceAllocation.mk 1 1 1 (Some 36000) (Some 39600),
         EventResourceAllocation.mk 2 3 1 (Some 37800) (Some 38700),
         mkConflictRow (Event.mk 1 "A" 36000 39600 "")
           (Some (Event.mk 3 "C" 37800 38700 ""))
           (Some (Resource.mk 1 "Room" "room")))]
  /\ filter (emitted_for (EventResourceAllocation.mk 2 3 1 (Some 37800) (Some 38700))
                        (EventResourceAllocation.mk 1 1 1 (Some 36000) (Some 39600)))
       (conflict_emissions double_booked_db)
     = [(EventResourceAllocation.mk 2 3 1 (Some 37800) (Some 38700),
         EventResourceAllocation.mk 1 1 1 (Some 36000) (Some 39600),
         mkConflictRow (Event.mk 3 "C" 37800 38700 "")
           (Some (Event.mk 1 "A" 36000 39600 ""))
           (Some (Resource.mk 1 "Room" "room")))].
Proof.
  assert (Hvalid : forall e, In e (events double_booked_db) -> valid_event e).
  { intros e [<-|[<-|[<-|[]]]]; unfold valid_event; cbn; lia. }
  assert (Hown : forall a, In a (allocations double_booked_db) ->
                           has_event double_booked_db a).
  { intros a [<-|[<-|[]]].
    - exists (Event.mk 1 "A" 36000 39600 ""). split; [now left | reflexivity].
    - exists (Event.mk 3 "C" 37800 38700 "").
      split; [right; right; now left | reflexivity]. }
  destruct (conflicts_lists_each_pair_twice double_booked_db
              unique_keys_double_booked Hvalid) as (_ & _ & H).
  destruct (H Hown) as [Hrun Hpair].
  split; [exact Hrun|].
  destruct (Hpair (EventResourceAllocation.mk 1 1 1 (Some 36000) (Some 39600))
              (EventResourceAllocation.mk 2 3 1 (Some 37800) (Some 38700))
              (Event.mk 1 "A" 36000 39600 "")
              (Event.mk 3 "C" 37800 38700 "")
              (Some (Resource.mk 1 "Room" "room"))) as (Hab & Hba & _);
    try reflexivity; try discriminate.
  - now left.
  - right. now left.
  - now left.
  - right. right. now left.
  - split; [now left | reflexivity].
  - split; [exact Hab | exact Hba].
Defined.

(** C10, against the claim as worded.  Every event of [dangling_db] has
    [start < end], and the allocations 1 and 2 bind the overlapping events A
    and C to room 1; but allocation 3 has no event, and the listing raises
    instead of showing the pair twice. *)
Lemma conflicts_fails_on_dangling_allocation :
  (forall e, In e (events dangling_db) -> valid_event e)
  /\ In (EventResourceAllocation.mk 1 1 1 (Some 36000) (Some 39600))
        (allocations dangling_db)
  /\ In (EventResourceAllocation.mk 2 3 1 (Some 37800) (Some 38700))
        (allocations dangling_db)
  /\ events_overlap (Event.mk 1 "A" 36000 39600 "") (Event.mk 3 "C" 37800 38700 "") = true
  /\ get_event dangling_db 9 = None
  /\ run_request conflicts dangling_db = (Raise AttributeError, dangling_db).
Proof.
  split.
  { intros e [<-|[<-|[<-|[]]]]; unfold valid_event; cbn; lia. }
  split; [now left|]. split; [right; now left|].
  repeat split.
Qed.

(** *** The utilization report *)

Lemma report_allocation_loop sd ed now allocs total upcoming s :
  (forall a, In a allocs ->
             get_event (pending s) (EventResourceAllocation.event_id a) <> None) ->
  for_each allocs (total, upcoming) (report_for_allocation sd ed now) s
  = (Return
       (fold_left PrimFloat.add
          (map (overlap_hours sd ed)
             (filter (in_window sd ed) (owning_events (pending s) allocs)))
          total,
        upcoming ++ filter (fun ev => Event.start_time ev >? now)
                      (owning_events (pending s) allocs)),
     s).
Proof.
  revert total upcoming. induction allocs as [|a l IH]; intros total upcoming Hown.
  - simpl. now rewrite app_nil_r.
  - rewrite for_each_cons. unfold report_for_allocation at 1, bind, query.
    cbn [owning_events flat_map].
    destruct (get_event (pending s) (EventResourceAllocation.event_id a)) as [ev|] eqn:Hev.
    2:{ exfalso. apply (Hown a); [now left | exact Hev]. }
    cbn [attr_of ret app filter]. cbv zeta.
    rewrite IH by (intros x Hx; apply Hown; now right).
    fold (in_window sd ed ev). fold (overlap_hours sd ed ev).
    fold (owning_events (pending s) l).
    destruct (in_window sd ed ev), (Event.start_time ev >? now);
      cbn [map fold_left]; rewrite <- ?app_assoc; reflexivity.
Qed.

Lemma report_resource_loop sd ed now rs acc s :
  (forall a, In a (allocations (pending s)) ->
             get_event (pending s) (EventResourceAllocation.event_id a) <> None) ->
  for_each rs acc (report_for_resource sd ed now) s
  = (Return (acc ++ map (report_row (pending s) sd ed now) rs), s).
Proof.
  revert acc. induction rs as [|r l IH]; intros acc Hown.
  - simpl. now rewrite app_nil_r.
  - rewrite for_each_cons. unfold report_for_resource at 1, bind, query.
    rewrite report_allocation_loop.
    2:{ intros a Ha. apply Hown. unfold resource_allocations in Ha.
        now apply filter_In in Ha. }
    cbn [ret fst snd app]. rewrite IH by exact Hown.
    cbn [map]. rewrite <- app_assoc. reflexivity.
Qed.



(** *** The dashboard percentage *)


Lemma in_upto n z : 0 <= z <= Z.of_nat n -> In z (upto n).
Proof.
  intros H. unfold upto. rewrite <- (Z2Nat.id z) by lia.
  apply in_map. apply in_seq. lia.
Qed.

Lemma load_table_sound n allocated total :
  load_table_ok n = true ->
  0 <= allocated <= Z.of_nat n -> 0 < total <= Z.of_nat n ->
  load_ok allocated total = true.
Proof.
  intros H Ha Ht. unfold load_table_ok in H.
  rewrite forallb_forall in H.
  assert (Hin : In total (upto n)) by (apply in_upto; lia).
  specialize (H total Hin).
  apply orb_true_iff in H. destruct H as [H|H]; [apply Z.eqb_eq in H; lia|].
  rewrite forallb_forall in H. apply H. now apply in_upto.
Qed.

(** The table for up to 300 resources, checked by evaluation. *)
Lemma load_table_300 : load_table_ok 300 = true.
Proof. vm_cast_no_check (eq_refl true). Qed.

Lemma load_ok_300 allocated total :
  0 <= allocated <= 300 -> 0 < total <= 300 -> load_ok allocated total = true.
Proof.
  intros Ha Ht. apply (load_table_sound 300 allocated total load_table_300).
  - change (Z.of_nat 300) with 300. exact Ha.
  - change (Z.of_nat 300) with 300. exact Ht.
Qed.

Lemma index_run now db :
  run_request (index now) db
  = match resource_load_of (allocated_resources db) (total_resources db) with
    | Return load =>
        (Return (mkDashboard
                   (Z.of_nat (List.length
                                (filter (fun e => (Event.start_time e <=? now)
                                                  && (Event.end_time e >=? now))
                                   (events db))))
                   load 0 0
                   (firstn 5 (order_by_allocation_id_desc (allocations db)))), db)
    | Raise e => (Raise e, db)
    end.
Proof.
  unfold run_request, index, bind, query, lift. cbn [pending].
  destruct (resource_load_of _ _); reflexivity.
Qed.



(** ** Further properties of the routes *)

(** *** Lookups after a write *)

Lemma find_snoc A (f : A -> bool) l x :
  find f (l ++ [x])
  = match find f l with
    | Some y => Some y
    | None => if f x then Some x else None
    end.
Proof.
  induction l as [|y l IH]; cbn [app find]; [reflexivity|].
  destruct (f y); [reflexivity | exact IH].
Qed.

Lemma find_key_fresh A (key : A -> Z) l k :
  (forall x, In x l -> key x < k) -> find (fun x => key x =? k) l = None.
Proof.
  intros H. destruct (find _ l) as [x|] eqn:F; [|reflexivity].
  apply find_some in F. destruct F as [Hx Hk]. apply Z.eqb_eq in Hk.
  specialize (H x Hx). lia.
Qed.

(** A lookup by key in a table where the rows with key [id] were rewritten by
    a function that keeps keys. *)
Lemma find_key_map A (key : A -> Z) (f : A -> A) l id k :
  (forall x, key (f x) = key x) ->
  find (fun x => key x =? k) (map (fun x => if key x =? id then f x else x) l)
  = if k =? id then option_map f (find (fun x => key x =? id) l)
    else find (fun x => key x =? k) l.
Proof.
  intros Hf. induction l as [|x l IH]; cbn [map find option_map].
  - now destruct (k =? id).
  - destruct (key x =? id) eqn:E; cbn [find]; rewrite ?Hf, IH.
    + apply Z.eqb_eq in E. rewrite E.
      destruct (k =? id) eqn:K.
      * apply Z.eqb_eq in K. subst k. now rewrite Z.eqb_refl.
      * now rewrite Z.eqb_sym, K.
    + destruct (k =? id) eqn:K; [|reflexivity].
      apply Z.eqb_eq in K. subst k. now rewrite E.
Qed.

(** A lookup by key in a table the rows with key [id] were deleted from. *)
Lemma find_key_filter A (key : A -> Z) l id k :
  find (fun x => key x =? k) (filter (fun x => negb (key x =? id)) l)
  = if k =? id then None else find (fun x => key x =? k) l.
Proof.
  induction l as [|x l IH]; cbn [filter find].
  - now destruct (k =? id).
  - destruct (key x =? id) eqn:E; cbn [negb find].
    + rewrite IH. destruct (k =? id) eqn:K; [reflexivity|].
      apply Z.eqb_eq in E. rewrite E, Z.eqb_sym, K. reflexivity.
    + rewrite IH. destruct (k =? id) eqn:K; [|reflexivity].
      apply Z.eqb_eq in K. subst k. now rewrite E.
Qed.

Lemma filter_key_filter A (key : A -> Z) (l : list A) id k :
  filter (fun x => key x =? k) (filter (fun x => negb (key x =? id)) l)
  = if k =? id then [] else filter (fun x => key x =? k) l.
Proof.
  induction l as [|x l IH]; cbn [filter].
  - now destruct (k =? id).
  - destruct (key x =? id) eqn:E; cbn [negb filter]; rewrite IH.
    + destruct (k =? id) eqn:K; [reflexivity|].
      apply Z.eqb_eq in E. rewrite E, Z.eqb_sym, K. reflexivity.
    + destruct (k =? id) eqn:K.
      * apply Z.eqb_eq in K. subst k. now rewrite E.
      * reflexivity.
Qed.

Lemma add_event_eq form db :
  run_request (add_event form) db
  = if form_start_time form >=? form_end_time form
    then (Return (Redirect url_add_event End_time_must_be_after_start_time), db)
    else (Return (Redirect url_events Event_created_successfully),
          insert_event (form_title form) (form_start_time form)
            (form_end_time form) (form_description form) db).
Proof.
  unfold run_request, add_event. cbv zeta.
  destruct (form_start_time form >=? form_end_time form); reflexivity.
Qed.

(** X1. [add_event] turns down a form whose start is not before its end and
    stores nothing; otherwise it stores the event under a key no stored event
    has, a lookup of that key returns the event of the form, and every other
    lookup and the other two tables are as before. *)
Theorem add_event_stores_fresh_event form db :
  (form_start_time form >= form_end_time form ->
   run_request (add_event form) db
   = (Return (Redirect url_add_event End_time_must_be_after_start_time), db))
  /\ (form_start_time form < form_end_time form ->
      exists db',
        run_request (add_event form) db
        = (Return (Redirect url_events Event_created_successfully), db')
        /\ get_event db (next_id (map Event.event_id (events db))) = None
        /\ get_event db' (next_id (map Event.event_id (events db)))
           = Some (Event.mk (next_id (map Event.event_id (events db)))
                     (form_title form) (form_start_time form)
                     (form_end_time form) (form_description form))
        /\ (forall k, k <> next_id (map Event.event_id (events db)) ->
                      get_event db' k = get_event db k)
        /\ resources db' = resources db
        /\ allocations db' = allocations db).
Proof.
  rewrite add_event_eq. split.
  - intros H. apply Z.ge_le in H. apply Z.geb_le in H. now rewrite H.
  - intros H.
    assert (Hge : (form_start_time form >=? form_end_time form) = false)
      by (rewrite Z.geb_leb; apply Z.leb_gt; lia).
    rewrite Hge. eexists. split; [reflexivity|].
    assert (Hnone : get_event db (next_id (map Event.event_id (events db))) = None).
    { apply find_key_fresh. intros e He. apply next_id_gt. now apply in_map. }
    split; [exact Hnone|].
    unfold get_event in *. unfold insert_event. cbn [events resources allocations].
    split; [|split; [|split; reflexivity]].
    + rewrite find_snoc, Hnone. cbn [Event.event_id]. now rewrite Z.eqb_refl.
    + intros k Hk. rewrite find_snoc.
      destruct (find (fun e => Event.event_id e =? k) (events db)); [reflexivity|].
      cbn [Event.event_id]. apply Z.eqb_neq in Hk. now rewrite Z.eqb_sym, Hk.
Qed.

Lemma add_event_stores_fresh_event_witness :
  exists db',
    run_request (add_event form_C) single_db
    = (Return (Redirect url_events Event_created_successfully), db')
    /\ get_event db' 2 = Some (Event.mk 2 "C" 37800 38700 "")
    /\ get_event db' 1 = get_event single_db 1.
Proof.
  destruct (proj2 (add_event_stores_fresh_event form_C single_db))
    as (db' & Hrun & _ & Hnew & Hold & _).
  - vm_compute. reflexivity.
  - exists db'. split; [exact Hrun|]. split; [exact Hnew|].
    apply Hold. vm_compute. discriminate.
Defined.

(** X2. When [edit_event] answers with the success message, a lookup of the
    event returns exactly the form's title, times and description under the
    same key; every other event, the keys of the events table, the resources
    and the allocations are as before. *)
Theorem edit_event_success_lookup db event_id form db' :
  run_request (edit_event event_id form) db
  = (Return (Redirect url_events Event_updated_successfully), db') ->
  get_event db' event_id
  = Some (Event.mk event_id (form_title form) (form_start_time form)
            (form_end_time form) (form_description form))
  /\ (forall k, k <> event_id -> get_event db' k = get_event db k)
  /\ map Event.event_id (events db') = map Event.event_id (events db)
  /\ resources db' = resources db
  /\ allocations db' = allocations db.
Proof.
  intros E. pose proof (edit_event_run db event_id form) as H. cbv zeta in H.
  rewrite E in H. cbn [fst snd] in H.
  destruct H as [[_ H]|(_ & -> & Hex & _)]; [now elim H|].
  split; [|split; [|split; [|split; reflexivity]]].
  - unfold get_event, update_event in *. cbn [events].
    rewrite !find_key_map by reflexivity. rewrite Z.eqb_refl.
    destruct (find (fun e => Event.event_id e =? event_id) (events db)) as [e|] eqn:F;
      [|now elim Hex].
    apply find_some in F. destruct F as [_ F]. apply Z.eqb_eq in F.
    cbn [option_map]. unfold set_times, set_title_description.
    cbn [Event.event_id Event.title Event.description]. now rewrite F.
  - intros k Hk. apply Z.eqb_neq in Hk.
    unfold get_event, update_event. cbn [events].
    rewrite !find_key_map by reflexivity. now rewrite Hk.
  - apply edited_event_ids.
Qed.

Lemma edit_event_success_lookup_witness :
  get_event
    (snd (run_request (edit_event 1 (mkEventForm "Kickoff" 43200 46800 "moved")) example_db)) 1
  = Some (Event.mk 1 "Kickoff" 43200 46800 "moved").
Proof.
  apply (edit_event_success_lookup example_db 1
           (mkEventForm "Kickoff" 43200 46800 "moved")).
  vm_compute. reflexivity.
Defined.

Lemma delete_event_eq id db :
  run_request (delete_event id) db
  = match get_event db id with
    | Some _ => (Return (Redirect url_events Event_deleted_successfully),
                 delete_event_row id db)
    | None => (Raise (if fits_int64 id then NotFound else OverflowError), db)
    end.
Proof.
  unfold run_request, delete_event, get_or_404, bind, query. cbn [pending].
  destruct (get_event db id); [reflexivity|].
  destruct (fits_int64 id); reflexivity.
Qed.

Lemma edit_resource_eq id form db :
  run_request (edit_resource id form) db
  = match get_resource db id with
    | Some _ =>
        (Return (Redirect url_resources Resource_updated_successfully),
         update_resource id
           (fun r => Resource.mk (Resource.resource_id r)
                       (form_resource_name form) (form_resource_type form)) db)
    | None => (Raise (if fits_int64 id then NotFound else OverflowError), db)
    end.
Proof.
  unfold run_request, edit_resource, get_or_404, bind, query. cbn [pending].
  destruct (get_resource db id); [reflexivity|].
  destruct (fits_int64 id); reflexivity.
Qed.

Lemma delete_resource_eq id db :
  run_request (delete_resource id) db
  = match get_resource db id with
    | Some _ => (Return (Redirect url_resources Resource_deleted_successfully),
                 delete_resource_row id db)
    | None => (Raise (if fits_int64 id then NotFound else OverflowError), db)
    end.
Proof.
  unfold run_request, delete_resource, get_or_404, bind, query. cbn [pending].
  destruct (get_resource db id); [reflexivity|].
  destruct (fits_int64 id); reflexivity.
Qed.

Lemma delete_allocation_eq id db :
  run_request (delete_allocation id) db
  = match get_allocation db id with
    | Some _ => (Return (Redirect url_allocations Allocation_removed_successfully),
                 delete_allocation_row id db)
    | None => (Raise (if fits_int64 id then NotFound else OverflowError), db)
    end.
Proof.
  unfold run_request, delete_allocation, get_or_404, bind, query. cbn [pending].
  destruct (get_allocation db id); [reflexivity|].
  destruct (fits_int64 id); reflexivity.
Qed.

(** X3. [delete_event] on a missing key stores nothing and raises: the 404
    when the key fits a signed 64-bit integer, [OverflowError] when it does
    not and cannot be bound to the query.  On a stored event it removes the
    event and, by the cascade, every allocation of it, and leaves the other
    events, their allocations and the resources as they were. *)
Theorem delete_event_cascades db id :
  (get_event db id = None ->
   run_request (delete_event id) db
   = (Raise (if fits_int64 id then NotFound else OverflowError), db))
  /\ (get_event db id <> None ->
      exists db',
        run_request (delete_event id) db
        = (Return (Redirect url_events Event_deleted_successfully), db')
        /\ get_event db' id = None
        /\ event_allocations id db' = []
        /\ (forall k, k <> id ->
                      get_event db' k = get_event db k
                      /\ event_allocations k db' = event_allocations k db)
        /\ resources db' = resources db).
Proof.
  rewrite delete_event_eq. split.
  - now intros ->.
  - intros H. destruct (get_event db id); [|now elim H].
    eexists. split; [reflexivity|].
    unfold get_event, event_allocations, delete_event_row. cbn [events allocations resources].
    split; [|split; [|split; [|reflexivity]]].
    + now rewrite find_key_filter, Z.eqb_refl.
    + now rewrite filter_key_filter, Z.eqb_refl.
    + intros k Hk. apply Z.eqb_neq in Hk.
      now rewrite find_key_filter, filter_key_filter, Hk.
Qed.

Lemma delete_event_cascades_witness :
  run_request (delete_event 9) example_db = (Raise NotFound, example_db)
  /\ run_request (delete_event (2 ^ 63)) example_db = (Raise OverflowError, example_db)
  /\ exists db',
      run_request (delete_event 1) example_db
      = (Return (Redirect url_events Event_deleted_successfully), db')
      /\ event_allocations 1 db' = []
      /\ event_allocations 2 db' = event_allocations 2 example_db.
Proof.
  split; [|split].
  - apply (proj1 (delete_event_cascades example_db 9)). reflexivity.
  - apply (proj1 (delete_event_cascades example_db (2 ^ 63))). reflexivity.
  - destruct (proj2 (delete_event_cascades example_db 1))
      as (db' & Hrun & _ & Hgone & Hkeep & _).
    + vm_compute. discriminate.
    + exists db'. split; [exact Hrun|]. split; [exact Hgone|].
      apply (Hkeep 2). discriminate.
Defined.

(** *** Resources *)

(** X4. [add_resource] validates nothing: it always stores the resource
    under a key no stored resource has, and a lookup of that key returns it.
    [edit_resource] on a missing key stores nothing and raises, the 404 when
    the key fits a signed 64-bit integer and [OverflowError] when it does
    not; otherwise a lookup of the key returns the form's name and type, and
    the other resources, the events and the allocations are as before. *)
Theorem resource_forms_round_trip form db :
  (exists db',
      run_request (add_resource form) db
      = (Return (Redirect url_resources Resource_created_successfully), db')
      /\ get_resource db (next_id (map Resource.resource_id (resources db))) = None
      /\ get_resource db' (next_id (map Resource.resource_id (resources db)))
         = Some (Resource.mk (next_id (map Resource.resource_id (resources db)))
                   (form_resource_name form) (form_resource_type form))
      /\ (forall k, k <> next_id (map Resource.resource_id (resources db)) ->
                    get_resource db' k = get_resource db k)
      /\ events db' = events db /\ allocations db' = allocations db)
  /\ forall id,
      (get_resource db id = None ->
       run_request (edit_resource id form) db
       = (Raise (if fits_int64 id then NotFound else OverflowError), db))
      /\ (get_resource db id <> None ->
          exists db',
            run_request (edit_resource id form) db
            = (Return (Redirect url_resources Resource_updated_successfully), db')
            /\ get_resource db' id
               = Some (Resource.mk id (form_resource_name form) (form_resource_type form))
            /\ (forall k, k <> id -> get_resource db' k = get_resource db k)
            /\ events db' = events db /\ allocations db' = allocations db).
Proof.
  split.
  - exists (insert_resource (form_resource_name form) (form_resource_type form) db).
    split; [reflexivity|].
    assert (Hnone : get_resource db (next_id (map Resource.resource_id (resources db)))
                    = None).
    { apply find_key_fresh. intros r Hr. apply next_id_gt. now apply in_map. }
    split; [exact Hnone|].
    unfold get_resource in *. unfold insert_resource. cbn [events resources allocations].
    split; [|split; [|split; reflexivity]].
    + rewrite find_snoc, Hnone. cbn [Resource.resource_id]. now rewrite Z.eqb_refl.
    + intros k Hk. rewrite find_snoc.
      destruct (find (fun r => Resource.resource_id r =? k) (resources db));
        [reflexivity|].
      cbn [Resource.resource_id]. apply Z.eqb_neq in Hk. now rewrite Z.eqb_sym, Hk.
  - intros id. rewrite edit_resource_eq. split.
    + now intros ->.
    + intros H. destruct (get_resource db id) as [r|] eqn:G; [|now elim H].
      eexists. split; [reflexivity|].
      unfold get_resource, update_resource in *. cbn [events resources allocations].
      split; [|split; [|split; reflexivity]].
      * rewrite find_key_map by reflexivity. rewrite Z.eqb_refl, G.
        apply find_some in G. destruct G as [_ G]. apply Z.eqb_eq in G.
        cbn [option_map]. now rewrite G.
      * intros k Hk. apply Z.eqb_neq in Hk.
        rewrite find_key_map by reflexivity. now rewrite Hk.
Qed.

Lemma resource_forms_round_trip_witness :
  run_request (edit_resource 9 (mkResourceForm "Hall" "room")) example_db
  = (Raise NotFound, example_db)
  /\ run_request (edit_resource (- 2 ^ 63 - 1) (mkResourceForm "Hall" "room")) example_db
     = (Raise OverflowError, example_db)
  /\ exists db',
      run_request (edit_resource 1 (mkResourceForm "Hall" "room")) example_db
      = (Return (Redirect url_resources Resource_updated_successfully), db')
      /\ get_resource db' 1 = Some (Resource.mk 1 "Hall" "room").
Proof.
  pose proof (proj2 (resource_forms_round_trip (mkResourceForm "Hall" "room") example_db))
    as H.
  split; [|split].
  - apply (proj1 (H 9)). reflexivity.
  - apply (proj1 (H (- 2 ^ 63 - 1))). reflexivity.
  - destruct (proj2 (H 1)) as (db' & Hrun & Hget & _).
    + vm_compute. discriminate.
    + exists db'. split; [exact Hrun | exact Hget].
Defined.

(** Whatever the conflicts page returns, it is the rows of the emissions. *)
Lemma conflicts_loop_ret allocs acc s rows s' :
  for_each allocs acc conflicts_step s = (Return rows, s') ->
  rows = acc ++ map snd (flat_map (emissions_of (pending s)) allocs) /\ s' = s.
Proof.
  revert acc. induction allocs as [|a l IH]; intros acc.
  - simpl. intros E. inversion E; subst. now rewrite app_nil_r.
  - rewrite for_each_cons. unfold conflicts_step at 1, bind, query.
    unfold emissions_of at 1. cbn [flat_map].
    destruct (get_event (pending s) (EventResourceAllocation.event_id a)) as [ev|];
      [|discriminate].
    cbn [attr_of ret]. rewrite conflicts_emit_loop.
    intros E. apply IH in E. destruct E as [-> ->]. split; [|reflexivity].
    now rewrite map_app, map_map, app_assoc.
Qed.

Lemma conflicts_ret db rows :
  fst (run_request conflicts db) = Return rows ->
  rows = map snd (conflict_emissions db).
Proof.
  unfold run_request, conflicts, bind, query. cbn [pending].
  destruct (for_each (allocations db) [] conflicts_step (mkSession db db))
    as [[rows'|e] s'] eqn:E; cbn [fst]; [|discriminate].
  intros R. inversion R; subst. now apply conflicts_loop_ret in E.
Qed.

(** Every row of the conflicts page shows the resource of a stored
    allocation. *)
Lemma conflicts_row_resource db rows row r :
  fst (run_request conflicts db) = Return rows ->
  In row rows -> resource row = Some r ->
  exists a, In a (allocations db)
            /\ EventResourceAllocation.resource_id a = Resource.resource_id r.
Proof.
  intros Hrun Hrow Hr. apply conflicts_ret in Hrun. subst rows.
  apply in_map_iff in Hrow. destruct Hrow as ([[a c] row'] & Heq & Hin).
  cbn in Heq. subst row'.
  unfold conflict_emissions in Hin. apply in_flat_map in Hin.
  destruct Hin as (a' & Ha' & Hin). unfold emissions_of in Hin.
  destruct (get_event db (EventResourceAllocation.event_id a')); [|contradiction].
  apply in_map_iff in Hin. destruct Hin as (c' & Heq & _).
  inversion Heq; subst. cbn [resource] in Hr.
  exists a. split; [exact Ha'|].
  unfold get_resource in Hr. apply find_some in Hr.
  destruct Hr as [_ Hr]. apply Z.eqb_eq in Hr. now rewrite Hr.
Qed.

(** X5. [delete_resource] on a missing key stores nothing and raises: the
    404 when the key fits a signed 64-bit integer, [OverflowError] when it
    does not.  On a stored resource it removes the resource and, by the
    cascade, every allocation of it, leaves the events as they were, and the
    conflicts page of the new state shows the deleted resource in none of its
    rows. *)
Theorem delete_resource_cascades db id :
  (get_resource db id = None ->
   run_request (delete_resource id) db
   = (Raise (if fits_int64 id then NotFound else OverflowError), db))
  /\ (get_resource db id <> None ->
      exists db',
        run_request (delete_resource id) db
        = (Return (Redirect url_resources Resource_deleted_successfully), db')
        /\ get_resource db' id = None
        /\ resource_allocations id db' = []
        /\ (forall k, k <> id ->
                      get_resource db' k = get_resource db k
                      /\ resource_allocations k db' = resource_allocations k db)
        /\ events db' = events db
        /\ forall rows row r,
            fst (run_request conflicts db') = Return rows ->
            In row rows -> resource row = Some r ->
            Resource.resource_id r <> id).
Proof.
  rewrite delete_resource_eq. split.
  - now intros ->.
  - intros H. destruct (get_resource db id); [|now elim H].
    eexists. split; [reflexivity|].
    split; [|split; [|split; [|split; [reflexivity|]]]].
    + unfold get_resource, delete_resource_row. cbn [resources].
      now rewrite find_key_filter, Z.eqb_refl.
    + unfold resource_allocations, delete_resource_row. cbn [allocations].
      now rewrite filter_key_filter, Z.eqb_refl.
    + intros k Hk. apply Z.eqb_neq in Hk.
      unfold get_resource, resource_allocations, delete_resource_row.
      cbn [resources allocations].
      now rewrite find_key_filter, filter_key_filter, Hk.
    + intros rows row r Hrun Hrow Hr.
      destruct (conflicts_row_resource _ rows row r Hrun Hrow Hr) as (a & Ha & Hid).
      unfold delete_resource_row in Ha. cbn [allocations] in Ha.
      apply filter_In in Ha. destruct Ha as [_ Ha].
      apply negb_true_iff, Z.eqb_neq in Ha. congruence.
Qed.

Lemma delete_resource_cascades_witness :
  run_request (delete_resource 9) double_booked_db = (Raise NotFound, double_booked_db)
  /\ run_request (delete_resource (2 ^ 64)) double_booked_db
     = (Raise OverflowError, double_booked_db)
  /\ exists db',
      run_request (delete_resource 1) double_booked_db
      = (Return (Redirect url_resources Resource_deleted_successfully), db')
      /\ resource_allocations 1 db' = [].
Proof.
  split; [|split].
  - apply (proj1 (delete_resource_cascades double_booked_db 9)). reflexivity.
  - apply (proj1 (delete_resource_cascades double_booked_db (2 ^ 64))). reflexivity.
  - destruct (proj2 (delete_resource_cascades double_booked_db 1))
      as (db' & Hrun & _ & Hgone & _).
    + vm_compute. discriminate.
    + exists db'. split; [exact Hrun | exact Hgone].
Defined.

(** *** Atomic requests *)

(** X6. Whatever the request, the stored database changes only when the
    request ends with one of the success messages: a request that raises (the
    404 of a missing key, [AttributeError], [IntegrityError]) or that flashes
    a refusal stores nothing. *)
Theorem store_changes_only_on_success fk r db :
  snd (serve fk r db) = db
  \/ exists to msg,
      fst (serve fk r db) = Return (Redirect to msg) /\ success_message msg = true.
Proof.
  unfold serve. destruct r as [form|id form|id|form|id form|id|eid rid|id];
    cbn [handle].
  - rewrite add_event_eq.
    destruct (form_start_time form >=? form_end_time form); [now left|].
    right. eexists _, _. split; reflexivity.
  - pose proof (edit_event_run db id form) as H. cbv zeta in H.
    destruct H as [[H _]|(H & _)]; [now left|].
    right. eexists _, _. split; [exact H | reflexivity].
  - rewrite delete_event_eq. destruct (get_event db id); [|now left].
    right. eexists _, _. split; reflexivity.
  - right. eexists _, _. split; reflexivity.
  - rewrite edit_resource_eq. destruct (get_resource db id); [|now left].
    right. eexists _, _. split; reflexivity.
  - rewrite delete_resource_eq. destruct (get_resource db id); [|now left].
    right. eexists _, _. split; reflexivity.
  - rewrite add_allocation_eq.
    destruct (fits_int64 eid && fits_int64 rid); [|now left].
    destruct (first_allocation eid rid db); [now left|].
    destruct (get_event db eid); [|now left].
    destruct (truthy _); [now left|].
    destruct (fk && _); [now left|].
    right. eexists _, _. split; reflexivity.
  - rewrite delete_allocation_eq. destruct (get_allocation db id); [|now left].
    right. eexists _, _. split; reflexivity.
Qed.

(** *** One allocation per event and resource *)

Lemma first_allocation_none eid rid db :
  first_allocation eid rid db = None <->
  ~ In (eid, rid) (map pair_key (allocations db)).
Proof.
  unfold first_allocation. split.
  - intros F Hin. apply in_map_iff in Hin. destruct Hin as (a & Hk & Ha).
    apply (find_none _ _ F) in Ha. unfold pair_key in Hk. inversion Hk; subst.
    now rewrite !Z.eqb_refl in Ha.
  - intros Hn.
    destruct (find (fun a => (EventResourceAllocation.event_id a =? eid)
                             && (EventResourceAllocation.resource_id a =? rid))
                (allocations db)) as [a|] eqn:F; [|reflexivity].
    apply find_some in F. destruct F as [Ha Hk].
    apply andb_true_iff in Hk. destruct Hk as [H1 H2].
    apply Z.eqb_eq in H1, H2. elim Hn. apply in_map_iff. exists a.
    split; [|exact Ha]. unfold pair_key. now rewrite H1, H2.
Qed.

(** What a successful [add_allocation] found and stored. *)
Lemma add_allocation_success fk eid rid db db' :
  run_request (add_allocation fk eid rid) db
  = (Return (Redirect url_allocations Resource_allocated_successfully), db') ->
  first_allocation eid rid db = None
  /\ exists ev,
      get_event db eid = Some ev
      /\ check_conflicts db eid rid (Event.start_time ev) (Event.end_time ev) = []
      /\ db' = insert_allocation_row eid rid
                 (Some (Event.start_time ev)) (Some (Event.end_time ev)) db.
Proof.
  rewrite add_allocation_eq.
  destruct (fits_int64 eid && fits_int64 rid); [|discriminate].
  destruct (first_allocation eid rid db); [discriminate|].
  destruct (get_event db eid) as [ev|]; [|discriminate].
  destruct (check_conflicts db eid rid (Event.start_time ev) (Event.end_time ev))
    eqn:Hc; cbn [truthy]; [|discriminate].
  destruct (fk && _); [discriminate|].
  intros E. inversion E; subst. split; [reflexivity|].
  exists ev. auto.
Qed.

Lemma add_allocation_success_fits fk eid rid db db' :
  run_request (add_allocation fk eid rid) db
  = (Return (Redirect url_allocations Resource_allocated_successfully), db') ->
  fits_int64 eid && fits_int64 rid = true.
Proof.
  rewrite add_allocation_eq.
  destruct (fits_int64 eid && fits_int64 rid); [reflexivity | discriminate].
Qed.

(** X7. Submitting the same allocation twice: after [add_allocation] has
    stored an allocation, the same request is answered with "already
    allocated" and stores nothing, and the table holds exactly one row for
    that event and resource. *)
Theorem add_allocation_twice fk eid rid db db' :
  run_request (add_allocation fk eid rid) db
  = (Return (Redirect url_allocations Resource_allocated_successfully), db') ->
  run_request (add_allocation fk eid rid) db'
  = (Return (Redirect url_add_allocation
               This_resource_is_already_allocated_to_this_event), db')
  /\ List.length
       (filter (fun a => (EventResourceAllocation.event_id a =? eid)
                         && (EventResourceAllocation.resource_id a =? rid))
          (allocations db')) = 1%nat.
Proof.
  intros E. pose proof (add_allocation_success_fits _ _ _ _ _ E) as Hfits.
  apply add_allocation_success in E.
  destruct E as (Hnone & ev & _ & _ & ->).
  assert (Hold : filter (fun a => (EventResourceAllocation.event_id a =? eid)
                                  && (EventResourceAllocation.resource_id a =? rid))
                   (allocations db) = []).
  { unfold first_allocation in Hnone.
    destruct (filter (fun a => (EventResourceAllocation.event_id a =? eid)
                               && (EventResourceAllocation.resource_id a =? rid))
                (allocations db)) as [|a l] eqn:F; [reflexivity|].
    assert (Ha : In a (a :: l)) by now left.
    rewrite <- F in Ha. apply filter_In in Ha. destruct Ha as [Ha Hk].
    apply (find_none _ _ Hnone) in Ha. congruence. }
  split.
  - rewrite add_allocation_eq, Hfits. unfold first_allocation, insert_allocation_row.
    cbn [allocations]. rewrite find_snoc.
    unfold first_allocation in Hnone. rewrite Hnone.
    cbn [EventResourceAllocation.event_id EventResourceAllocation.resource_id].
    now rewrite !Z.eqb_refl.
  - unfold insert_allocation_row. cbn [allocations].
    rewrite filter_app.
    match goal with
    | |- context [@filter ?T ?f (allocations db)] =>
        assert (Hold' : @filter T f (allocations db) = []) by exact Hold;
        rewrite Hold'
    end.
    cbn [filter app
      EventResourceAllocation.event_id EventResourceAllocation.resource_id].
    now rewrite !Z.eqb_refl.
Qed.

Lemma add_allocation_twice_witness :
  fst (run_request (add_allocation false 1 1) single_db)
  = Return (Redirect url_add_allocation
              This_resource_is_already_allocated_to_this_event).
Proof.
  destruct (add_allocation_twice false 1 1
              (serve_all false [AddEvent form_A; AddResource form_room] empty_db)
              single_db) as [H _].
  - vm_compute. reflexivity.
  - now rewrite H.
Defined.

Lemma serve_pairs_unique fk r db :
  NoDup (map pair_key (allocations db)) ->
  NoDup (map pair_key (allocations (snd (serve fk r db)))).
Proof.
  intros Hnd. unfold serve.
  destruct r as [form|id form|id|form|id form|id|eid rid|id]; cbn [handle].
  - rewrite add_event_eq.
    now destruct (form_start_time form >=? form_end_time form).
  - now rewrite edit_event_stores_allocations.
  - rewrite delete_event_eq. destruct (get_event db id); [|exact Hnd].
    now apply NoDup_map_filter.
  - exact Hnd.
  - rewrite edit_resource_eq. now destruct (get_resource db id).
  - rewrite delete_resource_eq. destruct (get_resource db id); [|exact Hnd].
    now apply NoDup_map_filter.
  - rewrite add_allocation_eq.
    destruct (fits_int64 eid && fits_int64 rid); [|exact Hnd].
    destruct (first_allocation eid rid db) eqn:F; [exact Hnd|].
    destruct (get_event db eid); [|exact Hnd].
    destruct (truthy _); [exact Hnd|].
    destruct (fk && _); [exact Hnd|].
    cbn [snd insert_allocation_row allocations]. rewrite map_app.
    apply NoDup_snoc; [exact Hnd|]. now apply first_allocation_none.
  - rewrite delete_allocation_eq. destruct (get_allocation db id); [|exact Hnd].
    now apply NoDup_map_filter.
Qed.

(** X8. In every state the application reaches from the empty database, no
    two stored allocations bind the same event to the same resource. *)
Theorem reachable_pairs_unique fk db :
  reachable fk db -> NoDup (map pair_key (allocations db)).
Proof.
  induction 1 as [|db r _ IH]; [constructor | now apply serve_pairs_unique].
Qed.

Lemma reachable_pairs_unique_witness :
  NoDup (map pair_key (allocations example_db)).
Proof.
  apply (reachable_pairs_unique false). apply reachable_serve_all. constructor.
Defined.

Lemma filter_fresh_snoc A (key : A -> Z) (l : list A) x :
  (forall y, In y l -> key y < key x) ->
  filter (fun y => negb (key y =? key x)) (l ++ [x]) = l.
Proof.
  intros H. rewrite filter_app. cbn [filter]. rewrite Z.eqb_refl. cbn [negb].
  rewrite app_nil_r. induction l as [|y l IH]; [reflexivity|].
  cbn [filter]. assert (Hy : key y < key x) by (apply H; now left).
  apply Z.lt_neq, Z.eqb_neq in Hy. rewrite Hy. cbn [negb]. f_equal.
  apply IH. intros z Hz. apply H. now right.
Qed.

(** X9. Allocating and removing again: after [add_allocation] has stored an
    allocation, [delete_allocation] on the key it was given is accepted and
    the stored database is exactly what it was before the allocation. *)
Theorem add_then_delete_allocation fk eid rid db db' :
  run_request (add_allocation fk eid rid) db
  = (Return (Redirect url_allocations Resource_allocated_successfully), db') ->
  run_request
    (delete_allocation
       (next_id (map EventResourceAllocation.allocation_id (allocations db)))) db'
  = (Return (Redirect url_allocations Allocation_removed_successfully), db).
Proof.
  intros E. apply add_allocation_success in E.
  destruct E as (_ & ev & _ & _ & ->).
  rewrite delete_allocation_eq.
  assert (Hfresh : forall y, In y (allocations db) ->
            EventResourceAllocation.allocation_id y
            < next_id (map EventResourceAllocation.allocation_id (allocations db)))
    by (intros y Hy; apply next_id_gt; now apply in_map).
  unfold get_allocation, insert_allocation_row. cbn [allocations].
  rewrite find_snoc, (find_key_fresh _ EventResourceAllocation.allocation_id) by exact Hfresh.
  cbn [EventResourceAllocation.allocation_id]. rewrite Z.eqb_refl.
  unfold delete_allocation_row. cbn [events resources allocations].
  f_equal.
  pose proof (filter_fresh_snoc _ EventResourceAllocation.allocation_id (allocations db)
                (EventResourceAllocation.mk
                   (next_id (map EventResourceAllocation.allocation_id (allocations db)))
                   eid rid (Some (Event.start_time ev)) (Some (Event.end_time ev)))
                Hfresh) as Hf.
  cbn [EventResourceAllocation.allocation_id] in Hf.
  transitivity (mkDB (events db) (resources db) (allocations db));
    [f_equal; exact Hf | now destruct db].
Qed.

Lemma add_then_delete_allocation_witness :
  run_request (delete_allocation 3) (snd (run_request (add_allocation false 3 7) example_db))
  = (Return (Redirect url_allocations Allocation_removed_successfully), example_db).
Proof.
  apply (add_then_delete_allocation false 3 7 example_db).
  vm_compute. reflexivity.
Defined.

(** *** The read routes on reachable states *)

Lemma owner_lookup db a :
  (exists e, In e (events db)
             /\ Event.event_id e = EventResourceAllocation.event_id a) ->
  get_event db (EventResourceAllocation.event_id a) <> None.
Proof.
  intros (e & He & Hid) F. unfold get_event in F.
  apply (find_none _ _ F) in He. rewrite Hid, Z.eqb_refl in He. discriminate.
Qed.

Lemma store_ok_no_conflicts db a ev :
  store_ok db -> In a (allocations db) ->
  get_event db (EventResourceAllocation.event_id a) = Some ev ->
  check_conflicts db (EventResourceAllocation.event_id a)
    (EventResourceAllocation.resource_id a)
    (Event.start_time ev) (Event.end_time ev) = [].
Proof.
  intros Hok Ha Hev.
  destruct (check_conflicts _ _ _ _ _) as [|c l] eqn:Hc; [reflexivity|].
  assert (Hin : In c (c :: l)) by now left.
  rewrite <- Hc in Hin. apply in_check_conflicts in Hin.
  destruct Hin as (Hca & Hr & Hne & e & He & Hid & Hov).
  apply get_event_some in Hev. destruct Hev as [Hev Hid'].
  pose proof (ok_no_conflict db Hok c a e ev Hca Ha He Hev Hid Hid' Hr Hne) as H.
  unfold events_overlap in H. congruence.
Qed.

(** X10. In every state the application reaches from the empty database by
    serving requests one after the other, the conflicts page does not raise
    and lists nothing, and the report does not raise and has exactly one row
    per stored resource, in table order. *)
Theorem reachable_read_routes fk db :
  reachable fk db ->
  run_request conflicts db = (Return [], db)
  /\ forall start_date end_date now,
      exists rows,
        run_request (report start_date end_date now) db = (Return rows, db)
        /\ map report_resource rows = resources db.
Proof.
  intros Hr. apply reachable_store_ok in Hr.
  assert (Hown : forall a, In a (allocations db) ->
                   get_event db (EventResourceAllocation.event_id a) <> None).
  { intros a Ha. apply owner_lookup. now apply (ok_owner db Hr). }
  split.
  - rewrite conflicts_run by exact Hown. f_equal.
    unfold conflict_emissions. rewrite flat_map_all_nil; [reflexivity|].
    intros a Ha. unfold emissions_of.
    destruct (get_event db (EventResourceAllocation.event_id a)) as [ev|] eqn:Hev;
      [|reflexivity].
    now rewrite (store_ok_no_conflicts db a ev Hr Ha Hev).
  - intros sd ed now. eexists. split.
    + unfold run_request, report, bind, query. cbv zeta. cbn [pending].
      rewrite report_resource_loop by exact Hown. reflexivity.
    + cbn [app pending]. rewrite map_map. cbn [report_row report_resource].
      apply map_id.
Qed.

Lemma reachable_read_routes_witness :
  run_request conflicts example_db = (Return [], example_db).
Proof.
  apply (reachable_read_routes false). apply reachable_serve_all. constructor.
Defined.

(** *** Foreign keys *)

Lemma serve_resources_exist r db :
  (forall a, In a (allocations db) ->
             get_resource db (EventResourceAllocation.resource_id a) <> None) ->
  forall a, In a (allocations (snd (serve true r db))) ->
            get_resource (snd (serve true r db))
              (EventResourceAllocation.resource_id a) <> None.
Proof.
  intros H. unfold serve.
  destruct r as [form|id form|id|form|id form|id|eid rid|id]; cbn [handle].
  - rewrite add_event_eq.
    destruct (form_start_time form >=? form_end_time form); exact H.
  - pose proof (edit_event_run db id form) as E. cbv zeta in E.
    destruct E as [[-> _]|(_ & -> & _)]; exact H.
  - rewrite delete_event_eq. destruct (get_event db id); [|exact H].
    intros a Ha. cbn [snd delete_event_row allocations] in Ha.
    apply filter_In in Ha. now apply H.
  - intros a Ha. cbn in Ha. specialize (H a Ha).
    change (snd (run_request (add_resource form) db))
      with (insert_resource (form_resource_name form) (form_resource_type form) db).
    unfold get_resource, insert_resource in *. cbn [resources].
    rewrite find_snoc.
    destruct (find (fun r => Resource.resource_id r
                             =? EventResourceAllocation.resource_id a) (resources db));
      [discriminate | now elim H].
  - rewrite edit_resource_eq. destruct (get_resource db id) eqn:G; [|exact H].
    intros a Ha. cbn [snd update_resource allocations] in Ha. specialize (H a Ha).
    cbn [snd]. unfold get_resource, update_resource in *. cbn [resources].
    rewrite find_key_map by reflexivity.
    destruct (EventResourceAllocation.resource_id a =? id); [now rewrite G | exact H].
  - rewrite delete_resource_eq. destruct (get_resource db id); [|exact H].
    intros a Ha. cbn [snd delete_resource_row allocations] in Ha.
    apply filter_In in Ha. destruct Ha as [Ha Hne]. specialize (H a Ha).
    cbn [snd]. unfold get_resource, delete_resource_row in *. cbn [resources].
    rewrite find_key_filter. apply negb_true_iff in Hne. now rewrite Hne.
  - rewrite add_allocation_eq.
    destruct (fits_int64 eid && fits_int64 rid); [|exact H].
    destruct (first_allocation eid rid db); [exact H|].
    destruct (get_event db eid); [|exact H].
    destruct (truthy _); [exact H|].
    destruct (get_resource db rid) eqn:G; cbn [andb]; [|exact H].
    intros a Ha. cbn [snd insert_allocation_row allocations] in Ha.
    apply in_app_iff in Ha. destruct Ha as [Ha|[<-|[]]]; [now apply H|].
    cbn. unfold get_resource in *. now rewrite G.
  - rewrite delete_allocation_eq. destruct (get_allocation db id) as [row|]; [|exact H].
    intros a Ha. cbn [snd delete_allocation_row allocations] in Ha.
    apply filter_In in Ha. now apply H.
Qed.

Lemma reachable_resources_exist db :
  reachable true db ->
  forall a, In a (allocations db) ->
            get_resource db (EventResourceAllocation.resource_id a) <> None.
Proof.
  induction 1 as [|db r _ IH]; [intros a [] | now apply serve_resources_exist].
Qed.

(** X11. When the database enforces the foreign keys, every allocation of
    every reachable state refers to a stored resource, the number of
    allocated resources is at most the number of resources, and with up to
    300 resources the dashboard shows a percentage of at most 100. *)
Theorem enforced_keys_bound_resource_load db now :
  reachable true db ->
  (forall a, In a (allocations db) ->
             get_resource db (EventResourceAllocation.resource_id a) <> None)
  /\ allocated_resources db <= total_resources db
  /\ (total_resources db <= 300 ->
      exists dash,
        run_request (index now) db = (Return dash, db)
        /\ resource_load dash <= 100).
Proof.
  intros Hr. pose proof (reachable_resources_exist db Hr) as Hres.
  assert (Hle : allocated_resources db <= total_resources db).
  { unfold allocated_resources, total_resources. apply inj_le.
    rewrite <- (length_map Resource.resource_id (resources db)).
    apply NoDup_incl_length; [apply NoDup_nodup|].
    intros k Hk. apply nodup_In, in_map_iff in Hk. destruct Hk as (a & <- & Ha).
    specialize (Hres a Ha). unfold get_resource in Hres.
    destruct (find _ (resources db)) as [r|] eqn:F; [|now elim Hres].
    apply find_some in F. destruct F as [Hin Hid]. apply Z.eqb_eq in Hid.
    rewrite <- Hid. now apply in_map. }
  split; [exact Hres|]. split; [exact Hle|].
  intros Ht. rewrite index_run.
  assert (Hd : 0 <= allocated_resources db) by (unfold allocated_resources; lia).
  destruct (Z.eq_dec (total_resources db) 0) as [H0|H0].
  - unfold resource_load_of. rewrite H0. cbn. eexists. split; [reflexivity|].
    cbn. lia.
  - assert (Hpos : 0 < total_resources db) by (unfold total_resources in *; lia).
    pose proof (load_ok_300 (allocated_resources db) (total_resources db)
                  ltac:(lia) ltac:(lia)) as Hok.
    unfold load_ok in Hok.
    destruct (resource_load_of _ _) as [n|e]; [|discriminate].
    eexists. split; [reflexivity|]. cbn [resource_load].
    assert (Hfloor : 100 * allocated_resources db / total_resources db <= 100).
    { apply Z.div_le_upper_bound; lia. }
    apply orb_true_iff in Hok. destruct Hok as [Hok|Hok].
    + apply Z.eqb_eq in Hok. lia.
    + apply andb_true_iff in Hok. destruct Hok as [Hn _].
      apply Z.eqb_eq in Hn. lia.
Qed.

Lemma enforced_keys_bound_resource_load_witness :
  allocated_resources (serve_all true example_requests empty_db)
  <= total_resources (serve_all true example_requests empty_db).
Proof.
  destruct (enforced_keys_bound_resource_load
              (serve_all true example_requests empty_db) 0) as (_ & H & _).
  - apply reachable_serve_all. constructor.
  - exact H.
Defined.

(** *** The cached times *)

Lemma serve_cache_consistent fk r db :
  is_edit_event r = false ->
  store_ok db -> cache_consistent db ->
  cache_consistent (snd (serve fk r db)).
Proof.
  intros Hr Hok Hc. unfold serve.
  destruct r as [form|id form|id|form|id form|id|eid rid|id]; cbn [handle];
    try discriminate.
  - rewrite add_event_eq.
    destruct (form_start_time form >=? form_end_time form); [exact Hc|].
    cbn [snd]. intros a e Ha He. apply (Hc a e Ha).
    unfold get_event, insert_event in *. cbn [events] in He.
    rewrite find_snoc in He.
    destruct (find (fun e0 => Event.event_id e0 =? EventResourceAllocation.event_id a)
                (events db)) as [e0|] eqn:F; [exact He|].
    exfalso. destruct (ok_owner db Hok a Ha) as (e1 & He1 & Hid1).
    apply (find_none _ _ F) in He1. now rewrite Hid1, Z.eqb_refl in He1.
  - rewrite delete_event_eq. destruct (get_event db id); [|exact Hc].
    cbn [snd]. intros a e Ha He. cbn [delete_event_row allocations] in Ha.
    apply filter_In in Ha. destruct Ha as [Ha Hne]. apply (Hc a e Ha).
    unfold get_event, delete_event_row in *. cbn [events] in He.
    rewrite find_key_filter in He. apply negb_true_iff in Hne.
    now rewrite Hne in He.
  - exact Hc.
  - rewrite edit_resource_eq. now destruct (get_resource db id).
  - rewrite delete_resource_eq. destruct (get_resource db id); [|exact Hc].
    cbn [snd]. intros a e Ha He. cbn [delete_resource_row allocations] in Ha.
    apply filter_In in Ha. now apply (Hc a e).
  - rewrite add_allocation_eq.
    destruct (fits_int64 eid && fits_int64 rid); [|exact Hc].
    destruct (first_allocation eid rid db); [exact Hc|].
    destruct (get_event db eid) as [ev|] eqn:Hev; [|exact Hc].
    destruct (truthy _); [exact Hc|].
    destruct (fk && _); [exact Hc|].
    cbn [snd]. intros a e Ha He. cbn [insert_allocation_row allocations] in Ha.
    change (get_event db (EventResourceAllocation.event_id a) = Some e) in He.
    apply in_app_iff in Ha. destruct Ha as [Ha|[<-|[]]]; [now apply (Hc a e)|].
    cbn in He |- *. rewrite Hev in He. inversion He; subst. now split.
  - rewrite delete_allocation_eq. destruct (get_allocation db id) as [row|]; [|exact Hc].
    cbn [snd]. intros a e Ha He. cbn [delete_allocation_row allocations] in Ha.
    apply filter_In in Ha. now apply (Hc a e).
Qed.

(** X12. As long as no event is edited, the cached times are right: after
    any sequence of requests without a POST to [edit_event], served from
    the empty database, every stored allocation carries the start and end
    time of its event. *)
Theorem cache_consistent_without_edits fk rs :
  forallb (fun r => negb (is_edit_event r)) rs = true ->
  cache_consistent (serve_all fk rs empty_db).
Proof.
  assert (H : forall db, store_ok db -> cache_consistent db ->
                forallb (fun r => negb (is_edit_event r)) rs = true ->
                cache_consistent (serve_all fk rs db)).
  { induction rs as [|r rs IH]; intros db Hok Hc Hrs; [exact Hc|].
    cbn [forallb] in Hrs. apply andb_true_iff in Hrs. destruct Hrs as [Hr Hrs].
    apply negb_true_iff in Hr. cbn [serve_all fold_left].
    apply IH; [now apply serve_store_ok | now apply serve_cache_consistent | exact Hrs]. }
  apply H; [apply store_ok_empty | intros a e []].
Qed.

Lemma cache_consistent_without_edits_witness :
  cache_consistent example_db.
Proof.
  apply (cache_consistent_without_edits false example_requests). reflexivity.
Defined.

(** *** More on the conflict query *)

(** X13. With unique primary keys, [check_conflicts] returns no allocation
    twice. *)
Theorem check_conflicts_no_duplicates db event_id resource_id start_time end_time :
  NoDup (map Event.event_id (events db)) ->
  NoDup (map EventResourceAllocation.allocation_id (allocations db)) ->
  NoDup (map EventResourceAllocation.allocation_id
           (check_conflicts db event_id resource_id start_time end_time)).
Proof.
  intros He Ha. rewrite check_conflicts_filter by exact He.
  now apply NoDup_map_filter.
Qed.

Lemma check_conflicts_no_duplicates_witness :
  NoDup (map EventResourceAllocation.allocation_id
           (check_conflicts double_booked_db 2 1 36000 43200)).
Proof.
  apply check_conflicts_no_duplicates.
  - repeat constructor; cbn; intuition discriminate.
  - repeat constructor; cbn; intuition discriminate.
Defined.

Lemma truthy_in A (l : list A) x : In x l -> truthy l = true.
Proof. destruct l; [intros [] | reflexivity]. Qed.

Lemma canonical_overlap_spec a b c d :
  canonical_overlap a b c d = true <-> a < d /\ c < b.
Proof.
  unfold canonical_overlap. rewrite andb_true_iff, Z.gtb_ltb, !Z.ltb_lt. tauto.
Qed.

(** X14. What [add_allocation] decides, in a database whose events all have
    [start < end], for a stored event not yet allocated to the resource, the
    event's key fitting a signed 64-bit integer.  A resource key that does not
    fit raises [OverflowError] and stores nothing.  With one that fits, the
    route refuses with "conflict detected" and stores nothing as soon as
    another event allocated to that resource shares time with the event; it
    accepts and stores the allocation when every other event allocated to the
    resource ends no later than the event starts or starts no earlier than it
    ends (and the resource exists or foreign keys are not enforced). *)
Theorem add_allocation_decides fk db eid rid ev :
  (forall e, In e (events db) -> valid_event e) ->
  get_event db eid = Some ev ->
  first_allocation eid rid db = None ->
  fits_int64 eid = true ->
  (fits_int64 rid = false ->
   run_request (add_allocation fk eid rid) db = (Raise OverflowError, db))
  /\ (fits_int64 rid = true ->
      (exists a e,
          In a (allocations db)
          /\ EventResourceAllocation.resource_id a = rid
          /\ EventResourceAllocation.event_id a <> eid
          /\ In e (events db)
          /\ Event.event_id e = EventResourceAllocation.event_id a
          /\ Event.start_time e < Event.end_time ev
          /\ Event.start_time ev < Event.end_time e) ->
      run_request (add_allocation fk eid rid) db
      = (Return (Redirect url_add_allocation Resource_conflict_detected), db))
  /\ (fits_int64 rid = true ->
      (forall a e,
          In a (allocations db) ->
          EventResourceAllocation.resource_id a = rid ->
          EventResourceAllocation.event_id a <> eid ->
          In e (events db) ->
          Event.event_id e = EventResourceAllocation.event_id a ->
          Event.end_time e <= Event.start_time ev
          \/ Event.end_time ev <= Event.start_time e) ->
      fk = false \/ get_resource db rid <> None ->
      run_request (add_allocation fk eid rid) db
      = (Return (Redirect url_allocations Resource_allocated_successfully),
         insert_allocation_row eid rid
           (Some (Event.start_time ev)) (Some (Event.end_time ev)) db)).
Proof.
  intros Hvalid Hev Hfirst Hfe. rewrite add_allocation_eq, Hfirst, Hev, Hfe.
  cbn [andb].
  assert (Hvev : valid_event ev) by (apply Hvalid; now apply get_event_some in Hev).
  split; [|split].
  - now intros ->.
  - intros -> (a & e & Ha & Hr & Hne & He & Hid & H1 & H2).
    rewrite (truthy_in _ _ a); [reflexivity|].
    apply in_check_conflicts. repeat split; try assumption.
    exists e. repeat split; try assumption.
    rewrite overlaps_canonical by first [exact Hvev | apply Hvalid; assumption].
    now apply canonical_overlap_spec.
  - intros -> Hfree Hres.
    assert (Hc : check_conflicts db eid rid (Event.start_time ev) (Event.end_time ev) = []).
    { destruct (check_conflicts _ _ _ _ _) as [|c l] eqn:Hc; [reflexivity|].
      assert (Hin : In c (c :: l)) by now left.
      rewrite <- Hc in Hin. apply in_check_conflicts in Hin.
      destruct Hin as (Hca & Hr & Hne & e & He & Hid & Hov).
      rewrite overlaps_canonical in Hov by first [exact Hvev | apply Hvalid; assumption].
      apply canonical_overlap_spec in Hov.
      destruct (Hfree c e Hca Hr Hne He Hid); lia. }
    rewrite Hc. cbn [truthy].
    destruct Hres as [->|Hres]; [reflexivity|].
    destruct (get_resource db rid); [|now elim Hres].
    now rewrite andb_false_r.
Qed.

Lemma add_allocation_decides_witness :
  run_request (add_allocation false 3 (2 ^ 63)) example_db
  = (Raise OverflowError, example_db)
  /\ run_request (add_allocation false 3 1) example_db
     = (Return (Redirect url_add_allocation Resource_conflict_detected), example_db)
  /\ run_request (add_allocation false 3 2) example_db
     = (Return (Redirect url_allocations Resource_allocated_successfully),
        insert_allocation_row 3 2 (Some 37800) (Some 38700) example_db).
Proof.
  assert (Hvalid : forall e, In e (events example_db) -> valid_event e).
  { intros e [<-|[<-|[<-|[]]]]; unfold valid_event; cbn; lia. }
  split; [|split].
  - apply (proj1 (add_allocation_decides false example_db 3 (2 ^ 63)
                    (Event.mk 3 "C" 37800 38700 "") Hvalid eq_refl eq_refl eq_refl)).
    reflexivity.
  - apply (proj1 (proj2 (add_allocation_decides false example_db 3 1
                           (Event.mk 3 "C" 37800 38700 "") Hvalid eq_refl eq_refl eq_refl)));
      [reflexivity|].
    exists (EventResourceAllocation.mk 1 1 1 (Some 36000) (Some 39600)),
           (Event.mk 1 "A" 36000 39600 "").
    repeat split; try reflexivity; try discriminate.
    + now left.
    + now left.
  - apply (proj2 (proj2 (add_allocation_decides false example_db 3 2
                           (Event.mk 3 "C" 37800 38700 "") Hvalid eq_refl eq_refl eq_refl)));
      [reflexivity | | now left].
    intros a e [<-|[<-|[]]] Hr; discriminate Hr.
Defined.

(** *** Editing without moving *)

Lemma edit_event_loop_clear event_id start_time end_time allocs acc s :
  (forall a, In a allocs ->
             check_conflicts (pending s) event_id
               (EventResourceAllocation.resource_id a) start_time end_time = []) ->
  for_each allocs acc (edit_event_check event_id start_time end_time) s
  = (Return acc, s).
Proof.
  induction allocs as [|x l IH]; intros H; [reflexivity|].
  rewrite for_each_cons, edit_event_check_run, (H x) by now left.
  apply IH. intros a Ha. apply H. now right.
Qed.

(** [edit_event] accepts as soon as the event exists, the interval is valid
    and no allocation of the event has a conflict. *)
Lemma edit_event_accepts db event_id form ev :
  get_event db event_id = Some ev ->
  form_start_time form < form_end_time form ->
  (forall a, In a (event_allocations event_id db) ->
             check_conflicts db event_id (EventResourceAllocation.resource_id a)
               (form_start_time form) (form_end_time form) = []) ->
  run_request (edit_event event_id form) db
  = (Return (Redirect url_events Event_updated_successfully),
     update_event event_id (set_times (form_start_time form) (form_end_time form))
       (update_event event_id
          (set_title_description (form_title form) (form_description form)) db)).
Proof.
  intros Hev Hlt Hall.
  unfold run_request, edit_event, get_or_404.
  unfold bind at 1. unfold bind at 1. unfold query at 1.
  cbv beta iota. cbn [pending]. rewrite Hev.
  unfold ret at 1. cbv beta iota.
  unfold bind at 1. unfold update at 1. cbv beta iota zeta. cbn [committed pending].
  assert (Hge : (form_start_time form >=? form_end_time form) = false)
    by (rewrite Z.geb_leb; apply Z.leb_gt; lia).
  rewrite Hge.
  unfold bind at 1. unfold query at 1. cbv beta iota. cbn [pending].
  unfold bind at 1. rewrite edit_event_loop_clear.
  - reflexivity.
  - cbn [pending]. intros a Ha. rewrite check_conflicts_update_title.
    now apply Hall.
Qed.

(** X15. Renaming is never refused: in every reachable state, a POST to
    [edit_event] that keeps the stored start and end of the event and only
    changes its title and description is accepted, and the event is stored
    with the new title and description and its old times. *)
Theorem rename_event_accepted fk db event_id ev title description :
  reachable fk db ->
  get_event db event_id = Some ev ->
  exists db',
    run_request
      (edit_event event_id
         (mkEventForm title (Event.start_time ev) (Event.end_time ev) description)) db
    = (Return (Redirect url_events Event_updated_successfully), db')
    /\ get_event db' event_id
       = Some (Event.mk event_id title (Event.start_time ev) (Event.end_time ev)
                 description)
    /\ allocations db' = allocations db.
Proof.
  intros Hr Hev. apply reachable_store_ok in Hr.
  pose proof (get_event_some db event_id ev Hev) as [Hin Hid].
  assert (Hrun : run_request
            (edit_event event_id
               (mkEventForm title (Event.start_time ev) (Event.end_time ev) description)) db
          = (Return (Redirect url_events Event_updated_successfully),
             update_event event_id
               (set_times (Event.start_time ev) (Event.end_time ev))
               (update_event event_id (set_title_description title description) db))).
  { apply (edit_event_accepts db event_id
             (mkEventForm title (Event.start_time ev) (Event.end_time ev) description)
             ev Hev).
    - cbn. now apply (ok_valid db Hr).
    - cbn [form_start_time form_end_time]. intros a Ha.
      unfold event_allocations in Ha. apply filter_In in Ha.
      destruct Ha as [Ha Hk]. apply Z.eqb_eq in Hk. rewrite <- Hk in *.
      now apply store_ok_no_conflicts. }
  eexists. split; [exact Hrun|]. split; [|reflexivity].
  unfold get_event, update_event in *. cbn [events].
  rewrite !find_key_map by reflexivity. rewrite Z.eqb_refl, Hev.
  cbn [option_map]. unfold set_times, set_title_description.
  cbn [Event.event_id Event.title Event.description]. now rewrite Hid.
Qed.

Lemma rename_event_accepted_witness :
  exists db',
    run_request (edit_event 1 (mkEventForm "Kickoff" 36000 39600 "room booked")) example_db
    = (Return (Redirect url_events Event_updated_successfully), db')
    /\ get_event db' 1 = Some (Event.mk 1 "Kickoff" 36000 39600 "room booked").
Proof.
  destruct (rename_event_accepted false example_db 1 (Event.mk 1 "A" 36000 39600 "")
              "Kickoff" "room booked") as (db' & Hrun & Hget & _).
  - apply reachable_serve_all. constructor.
  - reflexivity.
  - exists db'. split; [exact Hrun | exact Hget].
Defined.

(** *** The latest allocations of the dashboard *)

Lemma in_insert_desc a l x : In x (insert_desc a l) <-> x = a \/ In x l.
Proof.
  induction l as [|b l IH]; cbn [insert_desc].
  - cbn. intuition congruence.
  - destruct (_ <=? _); cbn [In]; [intuition congruence|].
    rewrite IH. intuition congruence.
Qed.

Lemma in_order_by_desc l x : In x (order_by_allocation_id_desc l) <-> In x l.
Proof.
  unfold order_by_allocation_id_desc. induction l as [|a l IH]; cbn [fold_right];
    [reflexivity|].
  rewrite in_insert_desc, IH. cbn. intuition congruence.
Qed.

Lemma length_insert_desc a l : List.length (insert_desc a l) = S (List.length l).
Proof.
  induction l as [|b l IH]; cbn [insert_desc]; [reflexivity|].
  destruct (_ <=? _); cbn [List.length]; [reflexivity | now rewrite IH].
Qed.

Lemma length_order_by_desc l :
  List.length (order_by_allocation_id_desc l) = List.length l.
Proof.
  unfold order_by_allocation_id_desc. induction l as [|a l IH]; cbn [fold_right];
    [reflexivity|].
  rewrite length_insert_desc. cbn. now rewrite IH.
Qed.

Lemma sorted_insert_desc a l :
  StronglySorted
    (fun x y => EventResourceAllocation.allocation_id y
                <= EventResourceAllocation.allocation_id x) l ->
  StronglySorted
    (fun x y => EventResourceAllocation.allocation_id y
                <= EventResourceAllocation.allocation_id x) (insert_desc a l).
Proof.
  induction 1 as [|b l Hs IH Hb]; cbn [insert_desc].
  - constructor; constructor.
  - destruct (_ <=? _) eqn:E.
    + apply Z.leb_le in E. constructor; [now constructor|].
      constructor; [exact E|].
      rewrite Forall_forall in *. intros y Hy. specialize (Hb y Hy). lia.
    + apply Z.leb_gt in E. constructor; [exact IH|].
      rewrite Forall_forall in *. intros y Hy. apply in_insert_desc in Hy.
      destruct Hy as [->|Hy]; [lia | now apply Hb].
Qed.

Lemma sorted_order_by_desc l :
  StronglySorted
    (fun x y => EventResourceAllocation.allocation_id y
                <= EventResourceAllocation.allocation_id x)
    (order_by_allocation_id_desc l).
Proof.
  unfold order_by_allocation_id_desc. induction l as [|a l IH]; cbn [fold_right].
  - constructor.
  - now apply sorted_insert_desc.
Qed.

Lemma in_firstn A n (l : list A) x : In x (firstn n l) -> In x l.
Proof.
  intros H. rewrite <- (firstn_skipn n l). apply in_app_iff. now left.
Qed.

Lemma sorted_firstn A (R : A -> A -> Prop) n l :
  StronglySorted R l -> StronglySorted R (firstn n l).
Proof.
  intros Hs. revert n. induction Hs as [|a l Hs IH Ha]; intros n.
  - destruct n; constructor.
  - destruct n as [|n]; cbn [firstn]; constructor; [apply IH|].
    rewrite Forall_forall in *. intros y Hy. apply Ha. eapply in_firstn. exact Hy.
Qed.

Lemma sorted_firstn_skipn A (R : A -> A -> Prop) n l x y :
  StronglySorted R l -> In x (firstn n l) -> In y (skipn n l) -> R x y.
Proof.
  intros Hs. revert n. induction Hs as [|a l Hs IH Ha]; intros n Hx Hy.
  - now destruct n.
  - destruct n as [|n]; [contradiction|].
    cbn [firstn skipn] in Hx, Hy. destruct Hx as [<-|Hx].
    + rewrite Forall_forall in Ha. apply Ha.
      rewrite <- (firstn_skipn n l). apply in_app_iff. now right.
    + now apply (IH n).
Qed.

(** X16. The dashboard's latest allocations are stored allocations, at most
    five and all of them when fewer are stored, listed by falling key, and no
    stored allocation left out has a larger key than a listed one. *)
Theorem dashboard_latest_allocations db now dash :
  fst (run_request (index now) db) = Return dash ->
  List.length (latest_allocations dash) = Nat.min 5 (List.length (allocations db))
  /\ StronglySorted
       (fun x y => EventResourceAllocation.allocation_id y
                   <= EventResourceAllocation.allocation_id x)
       (latest_allocations dash)
  /\ (forall a, In a (latest_allocations dash) -> In a (allocations db))
  /\ (forall a b,
         In a (latest_allocations dash) -> In b (allocations db) ->
         ~ In b (latest_allocations dash) ->
         EventResourceAllocation.allocation_id b
         <= EventResourceAllocation.allocation_id a).
Proof.
  rewrite index_run. destruct (resource_load_of _ _) as [n|e]; [|discriminate].
  cbn [fst]. intros E.
  assert (Hl : latest_allocations dash
               = firstn 5 (order_by_allocation_id_desc (allocations db)))
    by (injection E as <-; reflexivity).
  rewrite Hl. clear E Hl.
  split; [|split; [|split]].
  - now rewrite length_firstn, length_order_by_desc.
  - apply sorted_firstn, sorted_order_by_desc.
  - intros a Ha. apply in_order_by_desc. eapply in_firstn. exact Ha.
  - intros a b Ha Hb Hnb.
    apply (sorted_firstn_skipn _
             (fun x y => EventResourceAllocation.allocation_id y
                         <= EventResourceAllocation.allocation_id x)
             5 (order_by_allocation_id_desc (allocations db)));
      [apply sorted_order_by_desc | exact Ha |].
    apply in_order_by_desc in Hb.
    rewrite <- (firstn_skipn 5 (order_by_allocation_id_desc (allocations db))) in Hb.
    apply in_app_iff in Hb. now destruct Hb.
Qed.

Lemma dashboard_latest_allocations_witness :
  exists dash,
    fst (run_request (index 0) example_db) = Return dash
    /\ List.length (latest_allocations dash) = 2%nat.
Proof.
  eexists. split; [vm_compute; reflexivity|].
  apply (proj1 (dashboard_latest_allocations example_db 0 _ eq_refl)).
Defined.

(** *** More on the report *)

Lemma report_allocation_loop_ret sd ed now allocs total upcoming s r s' :
  for_each allocs (total, upcoming) (report_for_allocation sd ed now) s
  = (Return r, s') ->
  r = (fold_left PrimFloat.add
         (map (overlap_hours sd ed)
            (filter (in_window sd ed) (owning_events (pending s) allocs)))
         total,
       upcoming ++ filter (fun ev => Event.start_time ev >? now)
                     (owning_events (pending s) allocs))
  /\ s' = s.
Proof.
  revert total upcoming. induction allocs as [|a l IH]; intros total upcoming.
  - simpl. intros E. inversion E; subst. now rewrite app_nil_r.
  - rewrite for_each_cons. unfold report_for_allocation at 1, bind, query.
    cbn [owning_events flat_map].
    destruct (get_event (pending s) (EventResourceAllocation.event_id a)) as [ev|];
      [|discriminate].
    cbn [attr_of ret app filter]. cbv zeta.
    intros E. apply IH in E. destruct E as [-> ->]. split; [|reflexivity].
    fold (in_window sd ed ev). fold (overlap_hours sd ed ev).
    fold (owning_events (pending s) l).
    destruct (in_window sd ed ev), (Event.start_time ev >? now);
      cbn [map fold_left]; rewrite <- ?app_assoc; reflexivity.
Qed.

Lemma report_resource_loop_ret sd ed now rs acc s rows s' :
  for_each rs acc (report_for_resource sd ed now) s = (Return rows, s') ->
  rows = acc ++ map (report_row (pending s) sd ed now) rs /\ s' = s.
Proof.
  revert acc. induction rs as [|r l IH]; intros acc.
  - simpl. intros E. inversion E; subst. now rewrite app_nil_r.
  - rewrite for_each_cons. unfold report_for_resource at 1, bind, query.
    destruct (for_each (resource_allocations (Resource.resource_id r) (pending s))
                (0%float, []) (report_for_allocation sd ed now) s)
      as [[res|e] s1] eqn:E1; [|discriminate].
    apply report_allocation_loop_ret in E1. destruct E1 as [-> ->].
    cbn [ret fst snd app]. intros E. apply IH in E. destruct E as [-> ->].
    split; [|reflexivity]. cbn [map]. now rewrite <- app_assoc.
Qed.

(** Whatever the report returns, it is one [report_row] per resource. *)
Lemma report_ret db sd ed now rows :
  fst (run_request (report sd ed now) db) = Return rows ->
  rows = map (report_row db sd (replace_time ed 23 59 59) now) (resources db).
Proof.
  unfold run_request, report, bind, query. cbv zeta. cbn [pending].
  destruct (for_each (resources db) []
              (report_for_resource sd (replace_time ed 23 59 59) now)
              (mkSession db db)) as [[rows'|e] s'] eqn:E; cbn [fst]; [|discriminate].
  intros R. inversion R; subst. now apply report_resource_loop_ret in E.
Qed.

(** X17. The upcoming bookings of the report do not depend on the dates of
    the form: two reports of one state, read at the same clock, list the same
    upcoming bookings per resource whatever their windows; each listed event
    starts after the clock and belongs to an allocation of the resource. *)
Theorem report_upcoming_bookings db sd1 ed1 sd2 ed2 now rows1 rows2 :
  fst (run_request (report sd1 ed1 now) db) = Return rows1 ->
  fst (run_request (report sd2 ed2 now) db) = Return rows2 ->
  map upcoming_bookings rows1 = map upcoming_bookings rows2
  /\ forall row ev,
      In row rows1 -> In ev (upcoming_bookings row) ->
      Event.start_time ev > now
      /\ exists a,
          In a (resource_allocations (Resource.resource_id (report_resource row)) db)
          /\ get_event db (EventResourceAllocation.event_id a) = Some ev.
Proof.
  intros H1 H2. apply report_ret in H1, H2. subst rows1 rows2. split.
  - rewrite !map_map. reflexivity.
  - intros row ev Hrow Hev. apply in_map_iff in Hrow.
    destruct Hrow as (r & <- & _). cbn [report_row upcoming_bookings report_resource] in *.
    apply filter_In in Hev. destruct Hev as [Hev Hgt].
    split; [now apply Z.gtb_gt|].
    unfold owning_events in Hev. apply in_flat_map in Hev.
    destruct Hev as (a & Ha & Hin). exists a. split; [exact Ha|].
    destruct (get_event db (EventResourceAllocation.event_id a)) as [e|];
      [|contradiction].
    destruct Hin as [->|[]]. reflexivity.
Qed.

Lemma report_upcoming_bookings_witness :
  map upcoming_bookings
    (map (report_row booked_day_db 0 (replace_time 0 23 59 59) 0) (resources booked_day_db))
  = map upcoming_bookings
      (map (report_row booked_day_db (mk_datetime 2024 1 1 0 0 0)
              (replace_time (mk_datetime 2024 1 3 0 0 0) 23 59 59) 0)
         (resources booked_day_db)).
Proof.
  apply (report_upcoming_bookings booked_day_db
           0 0 (mk_datetime 2024 1 1 0 0 0) (mk_datetime 2024 1 3 0 0 0) 0);
    vm_compute; reflexivity.
Defined.

(** X18. A resource none of whose allocations has an event meeting the
    window (in particular a resource without allocations) is reported with
    [total_hours = 0.0]. *)
Theorem report_nothing_in_window db start_date end_date now rows row :
  fst (run_request (report start_date end_date now) db) = Return rows ->
  In row rows ->
  (forall a ev,
      In a (resource_allocations (Resource.resource_id (report_resource row)) db) ->
      get_event db (EventResourceAllocation.event_id a) = Some ev ->
      Event.end_time ev < start_date
      \/ replace_time end_date 23 59 59 < Event.start_time ev) ->
  total_hours row = 0%float.
Proof.
  intros Hrun Hrow Hout. apply report_ret in Hrun. subst rows.
  apply in_map_iff in Hrow. destruct Hrow as (r & <- & _).
  cbn [report_row total_hours report_resource] in *.
  assert (Hnone : filter (in_window start_date (replace_time end_date 23 59 59))
                    (owning_events db (resource_allocations (Resource.resource_id r) db))
                  = []).
  { destruct (filter _ _) as [|ev l] eqn:F; [reflexivity|].
    assert (Hin : In ev (ev :: l)) by now left.
    rewrite <- F in Hin. apply filter_In in Hin. destruct Hin as [Hin Hw].
    unfold owning_events in Hin. apply in_flat_map in Hin.
    destruct Hin as (a & Ha & Hev).
    destruct (get_event db (EventResourceAllocation.event_id a)) as [e|] eqn:G;
      [|contradiction].
    destruct Hev as [->|[]].
    unfold in_window in Hw. apply andb_true_iff in Hw. destruct Hw as [W1 W2].
    apply Z.leb_le in W1. apply Z.geb_le in W2.
    destruct (Hout a ev Ha G); lia. }
  rewrite Hnone. reflexivity.
Qed.

Lemma report_nothing_in_window_witness :
  total_hours
    (report_row booked_day_db (mk_datetime 2024 2 1 0 0 0)
       (replace_time (mk_datetime 2024 2 2 0 0 0) 23 59 59) 0
       (Resource.mk 1 "Room" "room"))
  = 0%float.
Proof.
  apply (report_nothing_in_window booked_day_db (mk_datetime 2024 2 1 0 0 0)
           (mk_datetime 2024 2 2 0 0 0) 0
           [report_row booked_day_db (mk_datetime 2024 2 1 0 0 0)
              (replace_time (mk_datetime 2024 2 2 0 0 0) 23 59 59) 0
              (Resource.mk 1 "Room" "room")]).
  - vm_compute. reflexivity.
  - now left.
  - intros a ev Ha Hev. destruct Ha as [<-|[]]. injection Hev as <-.
    left. vm_compute. reflexivity.
Defined.

(** *** Removing an allocation, moving an event *)

(** X19. [delete_allocation] on a missing key stores nothing and raises: the
    404 when the key fits a signed 64-bit integer, [OverflowError] when it
    does not.  On a stored allocation it removes the rows with that key and
    nothing else: the other allocations keep their place, events and
    resources are untouched. *)
Theorem delete_allocation_removes_one db id :
  (get_allocation db id = None ->
   run_request (delete_allocation id) db
   = (Raise (if fits_int64 id then NotFound else OverflowError), db))
  /\ (get_allocation db id <> None ->
      exists db',
        run_request (delete_allocation id) db
        = (Return (Redirect url_allocations Allocation_removed_successfully), db')
        /\ get_allocation db' id = None
        /\ (forall k, k <> id -> get_allocation db' k = get_allocation db k)
        /\ allocations db'
           = filter (fun a => negb (EventResourceAllocation.allocation_id a =? id))
               (allocations db)
        /\ events db' = events db /\ resources db' = resources db).
Proof.
  rewrite delete_allocation_eq. split.
  - now intros ->.
  - intros H. destruct (get_allocation db id) as [row|]; [|now elim H].
    eexists. split; [reflexivity|].
    unfold get_allocation, delete_allocation_row. cbn [events allocations resources].
    split; [|split; [|split; [|split]]]; try reflexivity.
    + now rewrite find_key_filter, Z.eqb_refl.
    + intros k Hk. apply Z.eqb_neq in Hk. now rewrite find_key_filter, Hk.
Qed.

Lemma delete_allocation_removes_one_witness :
  run_request (delete_allocation 9) example_db = (Raise NotFound, example_db)
  /\ run_request (delete_allocation (2 ^ 63)) example_db
     = (Raise OverflowError, example_db)
  /\ exists db',
      run_request (delete_allocation 1) example_db
      = (Return (Redirect url_allocations Allocation_removed_successfully), db')
      /\ get_allocation db' 1 = None
      /\ get_allocation db' 2 = get_allocation example_db 2.
Proof.
  split; [|split].
  - apply (proj1 (delete_allocation_removes_one example_db 9)). reflexivity.
  - apply (proj1 (delete_allocation_removes_one example_db (2 ^ 63))). reflexivity.
  - destruct (proj2 (delete_allocation_removes_one example_db 1))
      as (db' & Hrun & Hgone & Hkeep & _).
    + vm_compute. discriminate.
    + exists db'. split; [exact Hrun|]. split; [exact Hgone|].
      apply Hkeep. discriminate.
Defined.

(** X20. Moving an event into free time is accepted: in a database whose
    events all have [start < end], a POST to [edit_event] for a stored event,
    with a new start before the new end, is accepted whenever every event of
    another allocation on one of the event's resources ends no later than the
    new start or starts no earlier than the new end. *)
Theorem edit_event_accepts_free_slot db event_id form ev :
  (forall e, In e (events db) -> valid_event e) ->
  get_event db event_id = Some ev ->
  form_start_time form < form_end_time form ->
  (forall a c e,
      In a (event_allocations event_id db) ->
      In c (allocations db) ->
      EventResourceAllocation.resource_id c = EventResourceAllocation.resource_id a ->
      EventResourceAllocation.event_id c <> event_id ->
      In e (events db) ->
      Event.event_id e = EventResourceAllocation.event_id c ->
      Event.end_time e <= form_start_time form
      \/ form_end_time form <= Event.start_time e) ->
  exists db',
    run_request (edit_event event_id form) db
    = (Return (Redirect url_events Event_updated_successfully), db')
    /\ get_event db' event_id
       = Some (Event.mk event_id (form_title form) (form_start_time form)
                 (form_end_time form) (form_description form)).
Proof.
  intros Hvalid Hev Hlt Hfree.
  assert (Hrun := edit_event_accepts db event_id form ev Hev Hlt).
  eexists. split.
  - apply Hrun. intros a Ha.
    destruct (check_conflicts _ _ _ _ _) as [|c l] eqn:Hc; [reflexivity|].
    assert (Hin : In c (c :: l)) by now left.
    rewrite <- Hc in Hin. apply in_check_conflicts in Hin.
    destruct Hin as (Hca & Hr & Hne & e & He & Hid & Hov).
    rewrite overlaps_canonical in Hov by first [exact Hlt | apply Hvalid; assumption].
    apply canonical_overlap_spec in Hov.
    destruct (Hfree a c e Ha Hca Hr Hne He Hid); lia.
  - pose proof (get_event_some db event_id ev Hev) as [_ Hid].
    unfold get_event, update_event in *. cbn [events].
    rewrite !find_key_map by reflexivity. rewrite Z.eqb_refl, Hev.
    cbn [option_map]. unfold set_times, set_title_description.
    cbn [Event.event_id Event.title Event.description]. now rewrite Hid.
Qed.

Lemma edit_event_accepts_free_slot_witness :
  exists db',
    run_request (edit_event 1 (mkEventForm "A" 32400 36000 "")) double_booked_db
    = (Return (Redirect url_events Event_updated_successfully), db')
    /\ get_event db' 1 = Some (Event.mk 1 "A" 32400 36000 "").
Proof.
  apply (edit_event_accepts_free_slot double_booked_db 1
           (mkEventForm "A" 32400 36000 "") (Event.mk 1 "A" 36000 39600 "")).
  - intros e [<-|[<-|[<-|[]]]]; unfold valid_event; cbn; lia.
  - reflexivity.
  - cbn. lia.
  - intros a c e Ha Hc Hr Hne He Hid.
    destruct Hc as [<-|[<-|[]]]; [now elim Hne|].
    destruct He as [<-|[<-|[<-|[]]]]; try discriminate.
    right. cbn. lia.
Defined.

(** *** Active events *)

(** X21. An event counts as active from its start through its end, both
    included: after [add_event] has stored an event, the dashboard read at
    any clock shows one more active event if the clock lies between the
    event's start and end (both included), and the same number otherwise. *)
Theorem add_event_active_count form db db' now dash dash' :
  run_request (add_event form) db
  = (Return (Redirect url_events Event_created_successfully), db') ->
  fst (run_request (index now) db) = Return dash ->
  fst (run_request (index now) db') = Return dash' ->
  active_events dash'
  = active_events dash
    + (if (form_start_time form <=? now) && (form_end_time form >=? now)
       then 1 else 0).
Proof.
  rewrite add_event_eq.
  destruct (form_start_time form >=? form_end_time form); [discriminate|].
  intros E. injection E as <-. rewrite !index_run.
  change (allocated_resources (insert_event (form_title form) (form_start_time form)
                                 (form_end_time form) (form_description form) db))
    with (allocated_resources db).
  change (total_resources (insert_event (form_title form) (form_start_time form)
                             (form_end_time form) (form_description form) db))
    with (total_resources db).
  destruct (resource_load_of _ _) as [n|e]; [|discriminate].
  cbn [fst]. intros D D'. injection D as <-. injection D' as <-.
  cbn [active_events insert_event events].
  rewrite filter_app, length_app, Nat2Z.inj_add. f_equal.
  cbn [filter Event.start_time Event.end_time].
  now destruct ((form_start_time form <=? now) && (form_end_time form >=? now)).
Qed.

Lemma add_event_active_count_witness :
  exists dash dash',
    fst (run_request (index 37800) single_db) = Return dash
    /\ fst (run_request (index 37800)
              (snd (run_request (add_event form_C) single_db))) = Return dash'
    /\ active_events dash' = active_events dash + 1.
Proof.
  eexists _, _. split; [vm_compute; reflexivity|].
  split; [vm_compute; reflexivity|].
  apply (add_event_active_count form_C single_db
           (snd (run_request (add_event form_C) single_db)) 37800);
    vm_compute; reflexivity.
Defined.

(** *** The resources named in a refusal *)

Lemma edit_event_loop_names event_id start_time end_time allocs acc s names s' :
  for_each allocs acc (edit_event_check event_id start_time end_time) s
  = (Return names, s') ->
  forall n,
    In n names <->
    In n acc
    \/ exists a r,
        In a allocs
        /\ check_conflicts (pending s) event_id
             (EventResourceAllocation.resource_id a) start_time end_time <> []
        /\ get_resource (pending s) (EventResourceAllocation.resource_id a) = Some r
        /\ Resource.resource_name r = n.
Proof.
  revert acc. induction allocs as [|x l IH]; intros acc.
  - simpl. intros E n. inversion E; subst. split; [now left|].
    intros [H|(a & _ & [] & _)]. exact H.
  - rewrite for_each_cons, edit_event_check_run.
    destruct (check_conflicts (pending s) event_id
                (EventResourceAllocation.resource_id x) start_time end_time)
      as [|c cs] eqn:Hc.
    + intros E n. rewrite (IH _ E n). split.
      * intros [H|(a & r & Ha & H)]; [now left|]. right. exists a, r.
        split; [now right | exact H].
      * intros [H|(a & r & [<-|Ha] & Hne & H)]; [now left | | ].
        -- now elim Hne.
        -- right. exists a, r. auto.
    + destruct (get_resource (pending s) (EventResourceAllocation.resource_id x))
        as [r0|] eqn:G; [|discriminate].
      intros E n. rewrite (IH _ E n), in_app_iff. split.
      * intros [[H|[<-|[]]]|(a & r & Ha & H)].
        -- now left.
        -- right. exists x, r0. repeat split; try assumption; try (now left).
           rewrite Hc. discriminate.
        -- right. exists a, r. split; [now right | exact H].
      * intros [H|(a & r & [<-|Ha] & Hne & Hg & Hn)].
        -- left. now left.
        -- left. right. left. congruence.
        -- right. exists a, r. auto.
Qed.

(** X22. When [edit_event] refuses for a conflict, nothing is stored and the
    flashed list is not empty and names exactly the resources of the event's
    allocations on which [check_conflicts] found something for the new
    interval. *)
Theorem edit_event_conflict_names db event_id form names db' :
  run_request (edit_event event_id form) db
  = (Return (Redirect (url_edit_event event_id)
               (Time_conflict_detected_for_resources names)), db') ->
  db' = db
  /\ names <> []
  /\ forall n,
      In n names <->
      exists a r,
        In a (event_allocations event_id db)
        /\ check_conflicts db event_id (EventResourceAllocation.resource_id a)
             (form_start_time form) (form_end_time form) <> []
        /\ get_resource db (EventResourceAllocation.resource_id a) = Some r
        /\ Resource.resource_name r = n.
Proof.
  unfold run_request, edit_event, get_or_404.
  unfold bind at 1. unfold bind at 1. unfold query at 1.
  cbv beta iota. cbn [pending].
  destruct (get_event db event_id) as [ev|];
    [|destruct (fits_int64 event_id); discriminate].
  unfold ret at 1. cbv beta iota.
  unfold bind at 1. unfold update at 1. cbv beta iota zeta. cbn [committed pending].
  destruct (form_start_time form >=? form_end_time form); [discriminate|].
  unfold bind at 1. unfold query at 1. cbv beta iota. cbn [pending].
  unfold bind at 1.
  match goal with
  | |- context [for_each ?l ?acc ?b ?s] =>
      pose proof (edit_event_loop_names event_id (form_start_time form)
                    (form_end_time form) l acc s) as Hloop;
      pose proof (edit_event_loop_spec event_id (form_start_time form)
                    (form_end_time form) l acc s) as [Hs _];
      destruct (for_each l acc b s) as [o1 s']
  end.
  cbn [snd] in Hs. subst s'.
  destruct o1 as [names'|e]; [|discriminate].
  specialize (Hloop names' _ eq_refl).
  destruct (truthy names') eqn:Ht; [|discriminate].
  cbn. intros E. inversion E; subst. split; [reflexivity|].
  split; [now destruct names|].
  intros n. rewrite (Hloop n). cbn [pending In].
  split.
  - intros [[]|(a & r & Ha & Hc & Hg & Hn)]. exists a, r.
    rewrite check_conflicts_update_title in Hc. auto.
  - intros (a & r & Ha & Hc & Hg & Hn). right. exists a, r.
    rewrite check_conflicts_update_title. auto.
Qed.

Lemma edit_event_conflict_names_witness :
  In "Room"%string ["Room"%string]
  <-> exists a r,
      In a (event_allocations 1 example_db)
      /\ check_conflicts example_db 1 (EventResourceAllocation.resource_id a)
           36000 39601 <> []
      /\ get_resource example_db (EventResourceAllocation.resource_id a) = Some r
      /\ Resource.resource_name r = "Room"%string.
Proof.
  apply (edit_event_conflict_names example_db 1
           (mkEventForm "A2" 36000 39601 "moved") ["Room"%string] example_db).
  vm_compute. reflexivity.
Defined.
